(** * WeatherSearch: the rule-based descriptors, the summary composer, the
    insight generator and the weather fetcher of [weather_ai.py] and [app.py],
    embedded as functions over a model of the Python values they handle. *)

From Stdlib Require Import ZArith QArith Qround Lqa Lia Ascii String List.
From Stdlib Require Import DecimalString.
From stdpp Require Import base option gmap strings.

Set Warnings "-register-all".

Local Open Scope string_scope.
Local Open Scope Z_scope.

(** ** Text helpers *)

Module Text.

(** A line break of a triple-quoted literal followed by the twelve blanks
    the source indents the continuation lines with. *)
Definition nl : string := String (ascii_of_nat 10) EmptyString.
Definition indent : string := "            ".
(** The double quote character. *)
Definition dq : string := String (ascii_of_nat 34) EmptyString.

(** [str(n)] for a Python int: decimal digits, a leading minus sign. *)
Definition str_int (z : Z) : string := NilEmpty.string_of_int (Z.to_int z).

(** [sep] occurs in [s] at offset 0. *)
Fixpoint starts_with (sep s : string) : bool :=
  match sep, s with
  | EmptyString, _ => true
  | String _ _, EmptyString => false
  | String a sep', String b s' => if Ascii.eqb a b then starts_with sep' s' else false
  end.

(** [needle in hay]. *)
Fixpoint contains (needle hay : string) : bool :=
  starts_with needle hay
  || match hay with
     | EmptyString => false
     | String _ hay' => contains needle hay'
     end.

(** [s.split(sep)] for a non-empty [sep]: scan left to right, cut at every
    occurrence, resume after it.  [skip] counts the characters of the
    occurrence still to be passed over, [cur] holds the piece being built. *)
Fixpoint split_from (sep : string) (skip : nat) (cur s : string) : list string :=
  match s with
  | EmptyString => [cur]
  | String c s' =>
      match skip with
      | S k => split_from sep k cur s'
      | 0%nat =>
          if starts_with sep s
          then cur :: split_from sep (String.length sep - 1)%nat EmptyString s'
          else split_from sep 0%nat (cur ++ String c EmptyString) s'
      end
  end.

Definition split (sep s : string) : list string := split_from sep 0%nat EmptyString s.

(** A to Z folded to a to z; every other byte is kept.  This is what
    [str.lower] does on ASCII text. *)
Definition lower_ascii_char (c : ascii) : ascii :=
  let n := nat_of_ascii c in
  if ((65 <=? n) && (n <=? 90))%nat then ascii_of_nat (n + 32) else c.

Fixpoint lower_ascii (s : string) : string :=
  match s with
  | EmptyString => EmptyString
  | String c s' => String (lower_ascii_char c) (lower_ascii s')
  end.

Definition upper_ascii_char (c : ascii) : ascii :=
  let n := nat_of_ascii c in
  if ((97 <=? n) && (n <=? 122))%nat then ascii_of_nat (n - 32) else c.

End Text.

(** ** Python values *)

(** A Python float: a finite value (every finite double is a rational), the
    two infinities, or not-a-number. *)
Inductive pyfloat : Type :=
  | FFin (q : Q)
  | FPosInf
  | FNegInf
  | FNaN.

(** What [response.json()] can return, and so what [weather_data] and its
    fields can hold. *)
Inductive pyval : Type :=
  | VNone
  | VBool (b : bool)
  | VInt (z : Z)
  | VFloat (f : pyfloat)
  | VStr (s : string)
  | VList (l : list pyval)
  | VDict (d : gmap string pyval).

Definition type_name (v : pyval) : string :=
  match v with
  | VNone => "NoneType"
  | VBool _ => "bool"
  | VInt _ => "int"
  | VFloat _ => "float"
  | VStr _ => "str"
  | VList _ => "list"
  | VDict _ => "dict"
  end.

(** [bool(v)]: what [if not data] and [if data] test. *)
Definition truthy (v : pyval) : bool :=
  match v with
  | VNone => false
  | VBool b => b
  | VInt z => negb (z =? 0)
  | VFloat (FFin q) => negb (Qeq_bool q 0)
  | VFloat _ => true
  | VStr s => negb (String.eqb s EmptyString)
  | VList l => match l with [] => false | _ => true end
  | VDict d => negb (bool_decide (d = ∅))
  end.

(** ** Exceptions *)

Inductive exc_class : Type :=
  | BaseException
  | KeyboardInterrupt
  | SystemExit
  | Exception
  | LookupError
  | KeyError
  | IndexError
  | TypeError
  | AttributeError
  | ValueError
  | RuntimeError
  | RecursionError
  | NameError
  | UnboundLocalError
  | SyntaxError
  | OpenAIError
  | RequestException
  | HTTPError
  | ConnectionError
  | Timeout
  | InvalidJSONError
  | JSONDecodeError.

(** The base class each class derives from ([requests]' [JSONDecodeError]
    also derives from [ValueError]; the first base is the one that matters to
    the handlers of this program). *)
Definition base_class (c : exc_class) : option exc_class :=
  match c with
  | BaseException => None
  | KeyboardInterrupt | SystemExit | Exception => Some BaseException
  | LookupError | TypeError | AttributeError | ValueError | RuntimeError | NameError
  | SyntaxError | OpenAIError => Some Exception
  | RecursionError => Some RuntimeError
  | KeyError | IndexError => Some LookupError
  | UnboundLocalError => Some NameError
  | RequestException => Some Exception
  | HTTPError | ConnectionError | Timeout | InvalidJSONError => Some RequestException
  | JSONDecodeError => Some InvalidJSONError
  end.

#[global] Instance exc_class_eq_dec : EqDecision exc_class.
Proof. solve_decision. Defined.

Fixpoint derives_within (fuel : nat) (c d : exc_class) : bool :=
  bool_decide (c = d)
  || match fuel with
     | 0%nat => false
     | S fuel' =>
         match base_class c with
         | Some b => derives_within fuel' b d
         | None => false
         end
     end.

(** [issubclass(c, d)]; no chain of bases is longer than four. *)
Definition issubclass (c d : exc_class) : bool := derives_within 4%nat c d.

(** A raised exception: its class and [str(e)]. *)
Record exc : Type := Exc { exc_class_of : exc_class; exc_str : string }.

Definition isinstance (e : exc) (d : exc_class) : bool := issubclass (exc_class_of e) d.

(** A call either returns or raises. *)
Inductive outcome (A : Type) : Type :=
  | Return (a : A)
  | Raise (e : exc).
Arguments Return {A} & a.
Arguments Raise {A} e.

(** Sequencing: the first raise ends the block ([x ← m; k] below). *)
#[global] Instance outcome_ret : MRet outcome := fun A a => Return a.
#[global] Instance outcome_bind : MBind outcome := fun A B k m =>
  match m with
  | Return a => k a
  | Raise e => Raise e
  end.

(** [try: body  except cls as e: handler(e)]. *)
Definition try_except {A} (body : outcome A) (cls : exc_class) (handler : exc -> outcome A)
  : outcome A :=
  match body with
  | Return a => Return a
  | Raise e => if isinstance e cls then handler e else Raise e
  end.

Definition KeyError_of (key : string) : exc := Exc KeyError ("'" ++ key ++ "'").

Definition not_subscriptable (v : pyval) : exc :=
  Exc TypeError ("'" ++ type_name v ++ "' object is not subscriptable").

Definition unsupported_operands (op : string) (a b : pyval) : exc :=
  Exc TypeError ("'" ++ op ++ "' not supported between instances of '"
                 ++ type_name a ++ "' and '" ++ type_name b ++ "'").

Definition no_attribute (v : pyval) (attr : string) : exc :=
  Exc AttributeError ("'" ++ type_name v ++ "' object has no attribute '" ++ attr ++ "'").

(** [v[key]] for a string key (messages as CPython 3.11 words them). *)
Definition getitem (v : pyval) (key : string) : outcome pyval :=
  match v with
  | VDict d =>
      match d !! key with
      | Some x => Return x
      | None => Raise (KeyError_of key)
      end
  | VStr _ => Raise (Exc TypeError "string indices must be integers, not 'str'")
  | VList _ => Raise (Exc TypeError "list indices must be integers or slices, not str")
  | _ => Raise (not_subscriptable v)
  end.

(** ** Numbers and comparisons *)

(** The numeric value of an int, a bool (an int in Python) or a float. *)
Definition as_number (v : pyval) : option pyfloat :=
  match v with
  | VBool b => Some (FFin (inject_Z (if b then 1 else 0)))
  | VInt z => Some (FFin (inject_Z z))
  | VFloat f => Some f
  | _ => None
  end.

Definition Qlt_bool (a b : Q) : bool := negb (Qle_bool b a).

Definition float_lt (a b : pyfloat) : bool :=
  match a, b with
  | FNaN, _ | _, FNaN => false
  | FFin p, FFin q => Qlt_bool p q
  | FNegInf, FNegInf => false
  | FNegInf, _ => true
  | FFin _, FPosInf => true
  | _, _ => false
  end.

Definition float_eq (a b : pyfloat) : bool :=
  match a, b with
  | FFin p, FFin q => Qeq_bool p q
  | FPosInf, FPosInf | FNegInf, FNegInf => true
  | _, _ => false
  end.

Definition float_le (a b : pyfloat) : bool := float_lt a b || float_eq a b.

(** [a < b], [a <= b], [a >= b], [a > b] where one operand is a number: every
    comparison of this program has an int literal, or a value already compared
    with one, on one side. *)
Definition py_lt (a b : pyval) : outcome bool :=
  match as_number a, as_number b with
  | Some x, Some y => Return (float_lt x y)
  | _, _ => Raise (unsupported_operands "<" a b)
  end.

Definition py_le (a b : pyval) : outcome bool :=
  match as_number a, as_number b with
  | Some x, Some y => Return (float_le x y)
  | _, _ => Raise (unsupported_operands "<=" a b)
  end.

Definition py_gt (a b : pyval) : outcome bool :=
  match as_number a, as_number b with
  | Some x, Some y => Return (float_lt y x)
  | _, _ => Raise (unsupported_operands ">" a b)
  end.

Definition py_ge (a b : pyval) : outcome bool :=
  match as_number a, as_number b with
  | Some x, Some y => Return (float_le y x)
  | _, _ => Raise (unsupported_operands ">=" a b)
  end.

(** [v == n] for an int literal [n]: true for a number of that value, false
    for anything else. *)
Definition py_eq_int (v : pyval) (n : Z) : bool :=
  match as_number v with
  | Some x => float_eq x (FFin (inject_Z n))
  | None => false
  end.

(** ** Objects of other classes *)

(** An object the program comes to hold: a value as above, or an instance
    of some other class.  Such an instance is known by a name only; what it
    does when subscripted is up to its class.  Only a reply handed to [eval]
    can bring one in. *)
Inductive pyobj : Type :=
  | Plain (v : pyval)
  | Opaque (name : positive).

Coercion Plain : pyval >-> pyobj.

(** What code the program runs without having its text (a reply handed to
    [eval], a method of an object it made) leaves in the dicts and lists of
    the weather document, which it can reach and change in place: the object
    that sat at [path] when the document was fetched, and held [v] before
    the code ran, holds [after path v] once it has run. *)
Definition mutation : Type := list string -> pyval -> pyval.

Definition unchanged : mutation := fun _ v => v.

(** ** Effects *)

(** Static markup the pages are decorated with, by name. *)
Inductive markup : Type :=
  | CustomCss
  | HeaderOpen
  | MainTitle
  | Subtitle
  | DivClose
  | WeatherCardOpen
  | InsightsCardOpen
  | CardHeader (title : string)
  | InsightsHeading
  | Attribution.

(** What the program does to the outside, in order. *)
Inductive event : Type :=
  | HttpGet (url : string)
  | OpenAIClient (api_key : option string)
  | ChatCompletion (model system user : string)
  | Print (line : string)
  | StPageConfig
  | StMarkdown (m : markup)
  | StError (msg : string)
  | StWarning (msg : string)
  | StCode (body : string)
  | StInfo (msg : string)
  | StWrite (v : pyval)
  | StWriteObject (name : positive)
  | StSubheader (text : string)
  | StImage (url : string)
  | StColumns (n : nat)
  | StMetric (label : string) (v : pyval)
  | StTextInput
  | StSpinner (text : string)
  | StExpander (label : string)
  | Foreign (did : list event) (after : mutation).

(** [Foreign did after] stands for one run of code the program does not have
    the text of: [did] is what that code did to the outside, in order, and
    [after] what it left in the weather document.  The events of the program's
    own statements are never inside a [Foreign]. *)

(** A block of the program: its outcome and the events it caused. *)
Definition io (A : Type) : Type := (outcome A * list event)%type.

#[global] Instance io_ret : MRet io := fun A a => (Return a, []).
#[global] Instance io_bind : MBind io := fun A B k m =>
  match m with
  | (Return a, t) => let '(r, t') := k a in (r, (t ++ t')%list)
  | (Raise e, t) => (Raise e, t)
  end.

Definition emit (ev : event) : io unit := (Return tt, [ev]).
Definition pure {A} (o : outcome A) : io A := (o, []).

(** [try: body] followed by [except] clauses: the first clause whose class
    the exception is an instance of handles it; what a handler raises is
    not offered to the other clauses. *)
Fixpoint find_clause {A} (e : exc) (clauses : list (exc_class * (exc -> io A)))
  : option (exc -> io A) :=
  match clauses with
  | [] => None
  | (cls, h) :: rest => if isinstance e cls then Some h else find_clause e rest
  end.

Definition io_try {A} (body : io A) (clauses : list (exc_class * (exc -> io A))) : io A :=
  match body with
  | (Return a, t) => (Return a, t)
  | (Raise e, t) =>
      match find_clause e clauses with
      | Some h => let '(r, t') := h e in (r, (t ++ t')%list)
      | None => (Raise e, t)
      end
  end.

(** A block together with the events it caused, for the statements after
    it that read what foreign code may have changed. *)
Definition listen {A} (m : io A) : io (A * list event) :=
  match m with
  | (Return a, t) => (Return (a, t), t)
  | (Raise e, t) => (Raise e, t)
  end.

(** What the foreign runs of a trace, one after the other, leave in the
    weather document. *)
Fixpoint leaves_of (t : list event) : mutation :=
  match t with
  | [] => unchanged
  | Foreign _ after :: t' => fun path v => leaves_of t' path (after path v)
  | _ :: t' => leaves_of t'
  end.

(** ** The collaborators *)

(** A response of the HTTP client: the status line, the URL it answers, and
    what [response.json()] does with the body. *)
Record http_response : Type := HttpResponse {
  status_code : Z;
  reason : string;
  response_url : string;
  json : outcome pyval
}.

(** A chat completion: [message.content] of each choice ([None] when the
    model sent no text). *)
Record chat_response : Type := ChatResponse {
  choices : list (option string)
}.

(** The services behind the two clients: [requests.get], the [OpenAI]
    constructor and [client.chat.completions.create]. *)
Record world : Type := World {
  requests_get : string -> outcome http_response;
  OpenAI : option string -> outcome unit;
  chat_completions_create : string -> string -> string -> outcome chat_response
}.

(** The environment after [load_dotenv()]. *)
Record environ : Type := Environ {
  WEATHER_API_KEY : option string;
  OPENAI_API_KEY : option string
}.

(** ** Built-ins of the interpreter *)

(** Why the text of a list or dict cannot be made: an int in it has more
    digits than the interpreter converts, or the nesting is deeper than its
    recursion limit. *)
Inductive repr_failure : Type :=
  | DigitLimit
  | RecursionLimit.

(** One run of foreign code: what it returns or raises, what it does to
    the outside, and what it leaves in the weather document. *)
Record foreign_run : Type := ForeignRun {
  run_outcome : outcome pyobj;
  run_events : list event;
  run_leaves : mutation
}.

(** What [eval], called with one argument, lets the evaluated text reach:
    the names of the calling frame.  In [analyze_weather] these are [self]
    (and through it the client), [weather_data], the eight readings taken
    from it, [prompt] and [response]. *)
Record eval_scope : Type := EvalScope {
  scope_self : world;
  scope_weather_data : pyval;
  scope_prompt : string;
  scope_response : chat_response
}.

(** What the program takes from the Python runtime and does not define:
    the number of digits beyond which an int is not converted to text
    ([sys.get_int_max_str_digits()]: 4300 by default since CPython 3.11,
    0 for no limit, as in the versions before), the text of a finite float
    ([repr], shortest round-trip digits), the text of a list or dict, the
    Unicode-aware string methods, [eval], which runs the text it is given as
    code, and, for the objects such code can make, what subscripting one
    and what showing one on the page runs. *)
Record builtins : Type := Builtins {
  int_max_str_digits : Z;
  float_repr : Q -> string;
  container_repr : pyval -> string + repr_failure;
  str_lower : string -> string;
  str_capitalize : string -> string;
  str_strip : string -> string;
  builtin_eval : eval_scope -> string -> foreign_run;
  opaque_getitem : positive -> string -> foreign_run;
  opaque_show : positive -> foreign_run
}.

Section Runtime.

Variable py : builtins.
Variable w : world.
Variable env : environ.

Definition digit_limit_error : exc :=
  Exc ValueError
    ("Exceeds the limit (" ++ Text.str_int (int_max_str_digits py)
     ++ " digits) for integer string conversion; use sys.set_int_max_str_digits() to increase the limit").

Definition recursion_error : exc :=
  Exc RecursionError "maximum recursion depth exceeded while getting the repr of an object".

(** [str(z)] for an int: refused when a limit is set and [z] has more
    digits than it allows. *)
Definition int_str (z : Z) : outcome string :=
  let limit := int_max_str_digits py in
  let digits := Z.of_nat (String.length (Text.str_int (Z.abs z))) in
  if (0 <? limit) && (limit <? digits) then Raise digit_limit_error
  else Return (Text.str_int z).

(** [str(v)], which is also what [{v}] in an f-string renders. *)
Definition py_str (v : pyval) : outcome string :=
  match v with
  | VNone => Return "None"
  | VBool true => Return "True"
  | VBool false => Return "False"
  | VInt z => int_str z
  | VFloat (FFin q) => Return (float_repr py q)
  | VFloat FPosInf => Return "inf"
  | VFloat FNegInf => Return "-inf"
  | VFloat FNaN => Return "nan"
  | VStr s => Return s
  | VList _ | VDict _ =>
      match container_repr py v with
      | inl text => Return text
      | inr DigitLimit => Raise digit_limit_error
      | inr RecursionLimit => Raise recursion_error
      end
  end.

(** [v.lower()]: only a str has the method. *)
Definition method_lower (v : pyval) : outcome string :=
  match v with
  | VStr s => Return (str_lower py s)
  | _ => Raise (no_attribute v "lower")
  end.

(** *** weather_ai.py: helper methods *)

(** [lo <= x < hi], evaluated left to right with short circuit. *)
Definition chained_le_lt (lo : Z) (x : pyval) (hi : Z) : outcome bool :=
  c ← py_le (VInt lo) x;
  if c : bool then py_lt x (VInt hi) else Return false.

Definition _get_temp_description (feelslike_c : pyval) : outcome string :=
  c1 ← py_lt feelslike_c (VInt (-20));
  if c1 : bool then
    Return "Extremely Cold – Extreme precautions necessary, high frostbite risk"
  else
  c2 ← chained_le_lt (-20) feelslike_c 0;
  if c2 : bool then
    Return "Very Cold to Frigid – Frostbite risk, dress in thermal layers"
  else
  c3 ← chained_le_lt 0 feelslike_c 15;
  if c3 : bool then
    Return "Cold – Need warm clothing, exposure could be uncomfortable"
  else
  c4 ← chained_le_lt 15 feelslike_c 25;
  if c4 : bool then
    Return "Cool to Mild – Generally comfortable, light to medium layers needed"
  else
  c5 ← chained_le_lt 25 feelslike_c 30;
  if c5 : bool then
    Return "Warm – Pleasant for most, dress lightly, stay hydrated"
  else
  c6 ← chained_le_lt 30 feelslike_c 40;
  if c6 : bool then
    Return "Hot – Can be uncomfortable, important to stay cool and hydrated"
  else
  c7 ← py_ge feelslike_c (VInt 40);
  if c7 : bool then
    Return "Extremely Hot – Dangerous heat levels, risk of heat-related illnesses"
  else
    Return "Unknown temperature comfort level".

Definition _get_wind_description (wind_kph : pyval) : outcome string :=
  c1 ← py_lt wind_kph (VInt 5);
  if c1 : bool then Return "very light breeze" else
  c2 ← py_lt wind_kph (VInt 12);
  if c2 : bool then Return "gentle breeze" else
  c3 ← py_lt wind_kph (VInt 20);
  if c3 : bool then Return "moderate wind" else
  c4 ← py_lt wind_kph (VInt 30);
  if c4 : bool then Return "strong wind" else
  Return "very strong wind".

Definition aqi_levels : gmap Z string :=
  <[1 := "Good - Air quality is satisfactory, and air pollution poses little or no risk."]>
  (<[2 := "Moderate - Air quality is acceptable. However, there may be a risk for some people, particularly those who are unusually sensitive to air pollution."]>
  (<[3 := "Unhealthy for Sensitive Groups - Members of sensitive groups may experience health effects. The general public is less likely to be affected."]>
  (<[4 := "Unhealthy - Some members of the general public may experience health effects; members of sensitive groups may experience more serious health effects"]>
  (<[5 := "Very Unhealthy - Health alert: The risk of health effects is increased for everyone."]>
  (<[6 := "Hazardous - Health warnings of emergency conditions. The entire population is more likely to be affected."]>
   ∅))))).

(** The int key a value hashes and compares equal to, if any: [1], [True]
    and [1.0] all find the entry of key 1. *)
Definition as_int_key (v : pyval) : option Z :=
  match as_number v with
  | Some (FFin q) => if Qeq_bool q (inject_Z (Qfloor q)) then Some (Qfloor q) else None
  | _ => None
  end.

(** [aqi_levels.get(aqi, "Unknown")]: a list or a dict cannot be hashed. *)
Definition _get_aqi_description (aqi : pyval) : outcome string :=
  match aqi with
  | VList _ | VDict _ =>
      Raise (Exc TypeError ("unhashable type: '" ++ type_name aqi ++ "'"))
  | _ =>
      match as_int_key aqi with
      | Some k => Return (default "Unknown" (aqi_levels !! k))
      | None => Return "Unknown"
      end
  end.

Definition _get_day_night_description (is_day : pyval) : string :=
  if py_eq_int is_day 1 then "day" else "night".

(** *** weather_ai.py: get_weather_summary *)

(** [l[0]]. *)
Definition first_item (l : list string) : outcome string :=
  match l with
  | x :: _ => Return x
  | [] => Raise (Exc IndexError "list index out of range")
  end.

(** The f-string of the summary, as a function of what its replacement
    fields evaluate to. *)
Definition summary_template (time_of_day location_name comfort condition_lower temp
                             feels_like humidity wind_desc wind_kph chill advice : string)
  : string :=
  "During the " ++ time_of_day ++ " in " ++ location_name
  ++ ", residents can expect " ++ comfort ++ " conditions "
  ++ Text.nl ++ Text.indent
  ++ "with " ++ condition_lower ++ " skies. The temperature stands at "
  ++ temp ++ "°C, but with the wind chill, "
  ++ Text.nl ++ Text.indent
  ++ "it feels like " ++ feels_like ++ "°C. Humidity levels are at "
  ++ humidity ++ "%, and there is a " ++ wind_desc ++ " "
  ++ Text.nl ++ Text.indent
  ++ "blowing at " ++ wind_kph ++ " km/h" ++ chill ++ ". "
  ++ Text.nl ++ Text.indent
  ++ advice ++ " "
  ++ Text.nl ++ Text.indent
  ++ "if you're heading outdoors.".

(** The body of the [try] block. *)
Definition summary_body (weather_data : pyval) : outcome string :=
  current ← getitem weather_data "current";
  temp ← getitem current "temp_c";
  feels_like ← getitem current "feelslike_c";
  condition ← (c ← getitem current "condition"; getitem c "text");
  humidity ← getitem current "humidity";
  wind_kph ← getitem current "wind_kph";
  is_day ← getitem current "is_day";
  temp_desc ← (d ← _get_temp_description feels_like; first_item (Text.split " – " d));
  let time_of_day := _get_day_night_description is_day in
  wind_desc ← _get_wind_description wind_kph;
  location_name ← (l ← getitem weather_data "location"; getitem l "name");
  (* the replacement fields of the f-string, each evaluated and then
     rendered, left to right *)
  location_text ← py_str location_name;
  let comfort := str_lower py temp_desc in
  condition_lower ← method_lower condition;
  temp_text ← py_str temp;
  feels_like_text ← py_str feels_like;
  humidity_text ← py_str humidity;
  wind_kph_text ← py_str wind_kph;
  colder ← py_lt feels_like temp;
  chilly ← py_lt feels_like (VInt 10);
  advice ← (if chilly : bool then Return "Remember to layer up"
            else warm ← py_gt temp (VInt 25);
                 Return (if warm : bool then "Stay hydrated"
                         else "Enjoy the pleasant weather"));
  Return
    (summary_template time_of_day location_text comfort condition_lower temp_text
       feels_like_text humidity_text wind_desc wind_kph_text
       (if colder : bool then ", which adds to the cold sensation" else EmptyString)
       advice).

Definition summary_failure (e : exc) : string :=
  "Unable to generate weather summary: " ++ exc_str e.

Definition get_weather_summary (weather_data : pyval) : outcome string :=
  try_except (summary_body weather_data) Exception
    (fun e => Return (summary_failure e)).

(** *** weather_ai.py: analyze_weather *)

(** [a or b] on optional strings: [a] when it is a non-empty string. *)
Definition or_else (a b : option string) : option string :=
  match a with
  | Some s => if String.eqb s EmptyString then b else a
  | None => b
  end.

(** [WeatherAI.__init__]. *)
Definition WeatherAI (api_key : option string) : io unit :=
  let key := or_else api_key (OPENAI_API_KEY env) in
  (OpenAI w key, [OpenAIClient key]).

Definition fallback_insights : pyval :=
  VDict (<["analysis" := VStr "Unable to analyze weather conditions."]>
        (<["recommendations" := VStr "Recommendations unavailable."]>
        (<["activities" := VStr "Activity suggestions unavailable."]>
        (<["health_advice" := VStr "Health advice unavailable."]> ∅)))).

Definition system_message : string :=
  "You are WeatherSearch's expert meteorologist specializing in providing detailed, actionable weather insights with health and activity recommendations.".

(** The prompt f-string; its replacement fields are evaluated and
    rendered left to right, so the first of them that raises decides the
    exception.  A field that occurs again further down gives what it gave
    the first time. *)
Definition analysis_prompt (weather_data temp_c condition humidity wind_kph aqi
                            feels_like heat_index is_day : pyval) : outcome string :=
  temp_c_text ← py_str temp_c;
  feels_like_text ← py_str feels_like;
  temp_desc ← _get_temp_description feels_like;
  heat_index_text ← py_str heat_index;
  humidity_text ← py_str humidity;
  let time_of_day := _get_day_night_description is_day in
  condition_text ← py_str condition;
  wind_kph_text ← py_str wind_kph;
  wind_desc ← _get_wind_description wind_kph;
  aqi_text ← py_str aqi;
  aqi_desc ← _get_aqi_description aqi;
  location_name ← (l ← getitem weather_data "location"; getitem l "name");
  location_text ← py_str location_name;
  Return
    ("You are WeatherSearch's expert meteorologist. Analyze the following weather data and provide detailed recommendations:"
     ++ Text.nl ++ Text.nl ++ "            Current Weather Conditions:" ++ Text.nl
     ++ "            🌡️ Temperature Metrics:" ++ Text.nl ++ "            - Current: "
     ++ temp_c_text ++ "°C" ++ Text.nl ++ "            - Feels Like: " ++ feels_like_text
     ++ "°C (" ++ temp_desc ++ ")" ++ Text.nl ++ "            - Heat Index: "
     ++ heat_index_text ++ "°C" ++ Text.nl ++ "            - Humidity: " ++ humidity_text
     ++ "%" ++ Text.nl ++ Text.nl ++ "            🌪️ Weather Status:" ++ Text.nl
     ++ "            - Time: " ++ str_capitalize py time_of_day ++ "time" ++ Text.nl
     ++ "            - Condition: " ++ condition_text ++ Text.nl
     ++ "            - Wind Speed: " ++ wind_kph_text ++ " km/h (" ++ wind_desc ++ ")"
     ++ Text.nl ++ Text.nl ++ "            😷 Air Quality:" ++ Text.nl
     ++ "            - AQI Level: " ++ aqi_text ++ " (" ++ aqi_desc ++ ")" ++ Text.nl
     ++ Text.nl ++ "            Required Analysis Format:" ++ Text.nl
     ++ "            Return a JSON object with these keys, providing specific and actionable information:"
     ++ Text.nl ++ Text.nl ++ "            1. " ++ Text.dq ++ "analysis" ++ Text.dq
     ++ ": Combine temperature metrics, weather conditions, time of day, and air quality into a comprehensive weather summary."
     ++ Text.nl ++ "            Example: " ++ Text.dq ++ "In the " ++ time_of_day ++ ", "
     ++ location_text ++ " is experiencing " ++ condition_text ++ " conditions at "
     ++ temp_c_text ++ "°C, " ++ temp_desc ++ ". Air quality is " ++ aqi_desc ++ "."
     ++ Text.dq ++ Text.nl ++ Text.nl ++ "            2. " ++ Text.dq ++ "recommendations"
     ++ Text.dq ++ ": Suggest specific clothing and comfort measures based on:" ++ Text.nl
     ++ "            - Temperature comfort level: " ++ temp_desc ++ Text.nl
     ++ "            - Weather conditions: " ++ condition_text ++ Text.nl
     ++ "            - Wind speed and conditions" ++ Text.nl
     ++ "            - Time of day adaptations" ++ Text.nl ++ "            Example: " ++ Text.dq
     ++ "In the " ++ time_of_day ++ ", with " ++ temp_desc
     ++ " conditions, it's advisable to wear appropriate clothing and take necessary precautions."
     ++ Text.dq ++ Text.nl ++ Text.nl ++ "            3. " ++ Text.dq ++ "health_advice"
     ++ Text.dq ++ ": Provide health precautions based on:" ++ Text.nl
     ++ "            - Temperature safety: " ++ temp_desc ++ Text.nl
     ++ "            - Air quality considerations: " ++ aqi_desc ++ Text.nl
     ++ "            - UV protection needs" ++ Text.nl
     ++ "            - Wind chill or heat index factors" ++ Text.nl ++ Text.nl
     ++ "            4. " ++ Text.dq ++ "activities" ++ Text.dq
     ++ ": Recommend suitable activities considering:" ++ Text.nl
     ++ "            - Temperature comfort level" ++ Text.nl
     ++ "            - AQI level restrictions" ++ Text.nl
     ++ "            - Time-specific considerations" ++ Text.nl ++ "            Example: "
     ++ Text.dq ++ "In the " ++ time_of_day ++ ", considering the " ++ temp_desc
     ++ " conditions and current air quality, recommended activities include..." ++ Text.dq
     ++ Text.nl ++ "            " ++ Text.nl
     ++ "            Format your response exactly like this:" ++ Text.nl ++ "            {"
     ++ Text.nl ++ "                " ++ Text.dq ++ "analysis" ++ Text.dq ++ ": " ++ Text.dq
     ++ "Detailed current conditions analysis" ++ Text.dq ++ "," ++ Text.nl
     ++ "                " ++ Text.dq ++ "recommendations" ++ Text.dq ++ ": " ++ Text.dq
     ++ "Specific clothing and comfort advice" ++ Text.dq ++ "," ++ Text.nl
     ++ "                " ++ Text.dq ++ "health_advice" ++ Text.dq ++ ": " ++ Text.dq
     ++ "Health precautions based on AQI and weather" ++ Text.dq ++ "," ++ Text.nl
     ++ "                " ++ Text.dq ++ "activities" ++ Text.dq ++ ": " ++ Text.dq
     ++ "Suitable activity recommendations" ++ Text.dq ++ Text.nl ++ "            }" ++ Text.nl
     ++ Text.nl
     ++ "            Ensure each section is detailed yet concise (2-3 sentences max) and directly relates to the provided weather data.").

(** [response.choices[0].message.content.strip()]. *)
Definition reply_text (r : chat_response) : outcome string :=
  match choices r with
  | [] => Raise (Exc IndexError "list index out of range")
  | None :: _ => Raise (no_attribute VNone "strip")
  | Some content :: _ => Return (str_strip py content)
  end.

(** A run of foreign code as a block of the program. *)
Definition foreign (r : foreign_run) : io pyobj :=
  (run_outcome r, [Foreign (run_events r) (run_leaves r)]).

(** The two steps under "Get AI response" and "Parse and return the
    response": the chat call, then [eval] of the reply inside its own [try]
    with a bare [except].  [eval] runs the reply as an expression in the
    frame of [analyze_weather]. *)
Definition request_insights (weather_data : pyval) (prompt : string) : io pyobj :=
  response ← (chat_completions_create w "gpt-3.5-turbo" system_message prompt,
              [ChatCompletion "gpt-3.5-turbo" system_message prompt]);
  io_try
    (text ← pure (reply_text response);
     foreign (builtin_eval py
                {| scope_self := w;
                   scope_weather_data := weather_data;
                   scope_prompt := prompt;
                   scope_response := response |}
                text))
    [(BaseException, fun _ => mret (Plain fallback_insights))].

Definition report_and_fall_back (e : exc) : io pyobj :=
  emit (Print ("Error in analyze_weather: " ++ exc_str e));;
  mret (Plain fallback_insights).

Definition analyze_weather (weather_data : pyval) : io pyobj :=
  io_try
    (current ← pure (getitem weather_data "current");
     temp_c ← pure (getitem current "temp_c");
     condition ← pure (c ← getitem current "condition"; getitem c "text");
     humidity ← pure (getitem current "humidity");
     wind_kph ← pure (getitem current "wind_kph");
     aqi ← pure (a ← getitem current "air_quality"; getitem a "us-epa-index");
     feels_like ← pure (getitem current "feelslike_c");
     heat_index ← pure (getitem current "heatindex_c");
     is_day ← pure (getitem current "is_day");
     prompt ← pure (analysis_prompt weather_data temp_c condition humidity wind_kph aqi
                      feels_like heat_index is_day);
     request_insights weather_data prompt)
    [(Exception, report_and_fall_back)].

(** *** app.py *)

Definition BASE_URL : string := "https://api.weatherapi.com/v1/current.json".

(** [response.raise_for_status()] of requests: statuses 400 to 599 raise. *)
Definition raise_for_status (r : http_response) : outcome unit :=
  let msg kind :=
    Text.str_int (status_code r) ++ kind ++ reason r ++ " for url: " ++ response_url r in
  if (400 <=? status_code r) && (status_code r <? 500) then
    Raise (Exc HTTPError (msg " Client Error: "))
  else if (500 <=? status_code r) && (status_code r <? 600) then
    Raise (Exc HTTPError (msg " Server Error: "))
  else Return tt.

(** [{WEATHER_API_KEY}] inside an f-string. *)
Definition str_of_key (k : option string) : string :=
  match k with
  | Some s => s
  | None => "None"
  end.

Definition not_found_message (city : string) : string :=
  "🔍 City '" ++ city ++ "' not found. Please check the spelling and try again.".

Definition api_error_message (e : exc) : string := "⚠️ API Error: " ++ exc_str e.

Definition network_error_message : string :=
  "⚠️ Network Error: Unable to fetch weather data. Please check your internet connection.".

(** The name [response] is bound only once [requests.get] has returned. *)
Definition response_unbound : exc :=
  Exc UnboundLocalError
    "cannot access local variable 'response' where it is not associated with a value".

(** The f-string bound to [url]. *)
Definition request_url (city : string) (aqi : string) : string :=
  BASE_URL ++ "?key=" ++ str_of_key (WEATHER_API_KEY env)
  ++ "&q=" ++ city ++ "&aqi=" ++ aqi.

Definition get_current_weather (city : string) (aqi : string) : io pyval :=
  if negb (truthy (VStr city)) then mret VNone
  else
    let url := request_url city aqi in
    let got := requests_get w url in
    io_try
      (response ← (got, [HttpGet url]);
       pure (raise_for_status response);;
       pure (json response))
      [(HTTPError, fun e =>
          match got with
          | Return response =>
              (if status_code response =? 400
               then emit (StError (not_found_message city))
               else emit (StError (api_error_message e)));;
              mret VNone
          | Raise _ => pure (Raise response_unbound)
          end);
       (RequestException, fun e =>
          emit (StError network_error_message);;
          mret VNone)].

(** The module-level [try] around [WeatherAI(OPENAI_API_KEY)]: the value
    of [ai_enabled]. *)
Definition init_ai : io bool :=
  io_try
    (WeatherAI (OPENAI_API_KEY env);; mret true)
    [(Exception, fun e =>
        emit (StError ("Error initializing AI assistant: " ++ exc_str e));;
        mret false)].

(** Everything the module runs before [main()]. *)
Definition startup : io bool :=
  emit StPageConfig;;
  ai_enabled ← init_ai;
  emit (StMarkdown CustomCss);;
  emit (StMarkdown HeaderOpen);;
  emit (StMarkdown MainTitle);;
  emit (StMarkdown Subtitle);;
  emit (StMarkdown DivClose);;
  mret ai_enabled.

(** [o[key]] for a string key. *)
Definition subscript (o : pyobj) (key : string) : io pyobj :=
  match o with
  | Plain v => pure (x ← getitem v key; Return (Plain x))
  | Opaque name => foreign (opaque_getitem py name key)
  end.

(** [st.write(o)]: to show an object of another class Streamlit asks the
    object itself, which runs code of its class. *)
Definition st_write (o : pyobj) : io unit :=
  match o with
  | Plain v => emit (StWrite v)
  | Opaque name => foreign (opaque_show py name);; emit (StWriteObject name)
  end.

Definition insights_section (data : pyval) : io unit :=
  io_try
    (weather_summary ← pure (get_weather_summary data);
     ai_insights ← analyze_weather data;
     emit (StInfo ("🤖 **AI Summary:**  " ++ weather_summary));;
     emit (StMarkdown DivClose);;
     emit (StMarkdown InsightsHeading);;
     emit (StColumns 2);;
     emit (StMarkdown InsightsCardOpen);;
     emit (StMarkdown (CardHeader "📊 Analysis"));;
     analysis ← subscript ai_insights "analysis";
     st_write analysis;;
     emit (StMarkdown DivClose);;
     emit (StMarkdown (CardHeader "👕 Recommendations"));;
     recommendations ← subscript ai_insights "recommendations";
     st_write recommendations;;
     emit (StMarkdown DivClose);;
     emit (StMarkdown InsightsCardOpen);;
     emit (StMarkdown (CardHeader "🎯 Suggested Activities"));;
     activities ← subscript ai_insights "activities";
     st_write activities;;
     emit (StMarkdown DivClose);;
     emit (StMarkdown (CardHeader "💪 Health Advice"));;
     health_advice ← subscript ai_insights "health_advice";
     st_write health_advice;;
     emit (StMarkdown DivClose))
    [(Exception, fun e => emit (StError ("Error getting AI insights: " ++ exc_str e)))].

(** [data['current'][key]], read afresh. *)
Definition current_reading (data : pyval) (key : string) : outcome pyval :=
  c ← getitem data "current"; getitem c key.

Definition display_weather_info (ai_enabled : bool) (data : pyval) : io unit :=
  if negb (truthy data) then mret tt
  else
    location ← pure (getitem data "location");
    current ← pure (getitem data "current");
    city ← pure (getitem location "name");
    country ← pure (getitem location "country");
    temp ← pure (getitem current "temp_c");
    feels_like ← pure (getitem current "feelslike_c");
    condition ← pure (c ← getitem current "condition"; getitem c "text");
    aqi ← pure (a ← getitem current "air_quality"; getitem a "us-epa-index");
    icon ← pure (c ← getitem current "condition"; i ← getitem c "icon";
                 icon_text ← py_str i; Return ("http:" ++ icon_text));
    emit (StMarkdown WeatherCardOpen);;
    place ← pure (city_text ← py_str city; country_text ← py_str country;
                  Return (city_text ++ ", " ++ country_text));
    emit (StSubheader place);;
    sky ← pure (condition_text ← py_str condition; Return ("☁️ " ++ condition_text));
    emit (StWrite (VStr sky));;
    emit (StMarkdown DivClose);;
    emit (StMarkdown WeatherCardOpen);;
    emit (StMarkdown (CardHeader "🌡️ Current Weather"));;
    emit (StColumns 3);;
    emit (StImage icon);;
    emit (StColumns 3);;
    temperature ← pure (t ← current_reading data "temp_c"; text ← py_str t;
                        Return (text ++ "°C"));
    emit (StMetric "Temperature" (VStr temperature));;
    feels ← pure (t ← current_reading data "feelslike_c"; text ← py_str t;
                  Return (text ++ "°C"));
    emit (StMetric "Feels Like" (VStr feels));;
    humidity ← pure (h ← current_reading data "humidity"; text ← py_str h;
                     Return (text ++ "%"));
    emit (StMetric "Humidity" (VStr humidity));;
    wind_speed ← pure (k ← current_reading data "wind_kph"; text ← py_str k;
                       Return (text ++ " km/h"));
    emit (StMetric "Wind Speed" (VStr wind_speed));;
    index ← pure (c ← getitem data "current"; a ← getitem c "air_quality";
                  getitem a "us-epa-index");
    emit (StMetric "Air Quality Index" index);;
    is_day ← pure (current_reading data "is_day");
    emit (StMetric "Time of Day" (VStr (if py_eq_int is_day 1 then "Day" else "Night")));;
    emit (StMarkdown DivClose);;
    shown ← listen (if ai_enabled then insights_section data
                    else emit (StMarkdown DivClose));
    (* [current] and [location] name the same two dicts as before; foreign
       code run for the insights may have changed what they hold *)
    let after := leaves_of (snd shown) in
    let current := after ["current"] current in
    let location := after ["location"] location in
    emit (StMarkdown WeatherCardOpen);;
    emit (StExpander "📝 Detailed Weather Information");;
    emit (StColumns 2);;
    wind ← pure (k ← getitem current "wind_kph"; speed ← py_str k;
                 d ← getitem current "wind_dir"; direction ← py_str d;
                 Return ("💨 Wind: " ++ speed ++ " km/h " ++ direction));
    emit (StWrite (VStr wind));;
    damp ← pure (h ← getitem current "humidity"; text ← py_str h;
                 Return ("💧 Humidity: " ++ text ++ "%"));
    emit (StWrite (VStr damp));;
    position ← pure (a ← getitem location "lat"; lat ← py_str a;
                     o ← getitem location "lon"; lon ← py_str o;
                     Return ("📍 Position: " ++ lat ++ ", " ++ lon));
    emit (StWrite (VStr position));;
    updated ← pure (u ← getitem current "last_updated"; text ← py_str u;
                    Return ("🕒 Last updated: " ++ text));
    emit (StWrite (VStr updated)).

Definition weather_key_instruction : string :=
  "⚠️ Please set up your Weather API key in the .env file!".

Definition ai_disabled_warning : string :=
  "⚠️ AI features are disabled. Add your OpenAI API key to enable AI insights.".

Definition env_snippet (assignment : string) : string :=
  Text.nl ++ "        " ++ assignment ++ Text.nl ++ "        ".

(** [main()]; [typed] is what [st.text_input] returns on this run. *)
Definition main (ai_enabled : bool) (typed : string) : io unit :=
  if negb (truthy (match WEATHER_API_KEY env with Some k => VStr k | None => VNone end))
  then
    emit (StError weather_key_instruction);;
    emit (StCode (env_snippet "WEATHER_API_KEY=your_weather_api_key"))
  else
    (if negb ai_enabled
     then emit (StWarning ai_disabled_warning);;
          emit (StCode (env_snippet "OPENAI_API_KEY=your_openai_api_key"))
     else mret tt);;
    emit StTextInput;;
    (if truthy (VStr typed)
     then emit (StSpinner "Fetching weather data...");;
          data ← get_current_weather typed "yes";
          if truthy data then display_weather_info ai_enabled data else mret tt
     else mret tt);;
    emit (StMarkdown Attribution).

(** One run of the script: the module body, then [main()]. *)
Definition run (typed : string) : io unit :=
  ai_enabled ← startup;
  main ai_enabled typed.

End Runtime.

(** ** The bands and the data model, as the specification words them *)

(** The seven comfort bands over the feels-like temperature. *)
Inductive comfort_band : Type :=
  | ExtremelyCold
  | VeryColdToFrigid
  | Cold
  | CoolToMild
  | Warm
  | Hot
  | ExtremelyHot.

(** Boundaries at -20, 0, 15, 25, 30 and 40, each closed on the lower end;
    the first and the last band are open-ended. *)
Definition in_comfort_band (b : comfort_band) (v : Q) : Prop :=
  match b with
  | ExtremelyCold => (v < -20)%Q
  | VeryColdToFrigid => (-20 <= v)%Q /\ (v < 0)%Q
  | Cold => (0 <= v)%Q /\ (v < 15)%Q
  | CoolToMild => (15 <= v)%Q /\ (v < 25)%Q
  | Warm => (25 <= v)%Q /\ (v < 30)%Q
  | Hot => (30 <= v)%Q /\ (v < 40)%Q
  | ExtremelyHot => (40 <= v)%Q
  end.

(** The comfort level a band's text opens with. *)
Definition comfort_phrase (b : comfort_band) : string :=
  match b with
  | ExtremelyCold => "Extremely Cold"
  | VeryColdToFrigid => "Very Cold to Frigid"
  | Cold => "Cold"
  | CoolToMild => "Cool to Mild"
  | Warm => "Warm"
  | Hot => "Hot"
  | ExtremelyHot => "Extremely Hot"
  end.

Definition comfort_advice (b : comfort_band) : string :=
  match b with
  | ExtremelyCold => "Extreme precautions necessary, high frostbite risk"
  | VeryColdToFrigid => "Frostbite risk, dress in thermal layers"
  | Cold => "Need warm clothing, exposure could be uncomfortable"
  | CoolToMild => "Generally comfortable, light to medium layers needed"
  | Warm => "Pleasant for most, dress lightly, stay hydrated"
  | Hot => "Can be uncomfortable, important to stay cool and hydrated"
  | ExtremelyHot => "Dangerous heat levels, risk of heat-related illnesses"
  end.

(** The fixed text of a band: the level, an en dash between two blanks, the
    advice. *)
Definition comfort_text (b : comfort_band) : string :=
  comfort_phrase b ++ " – " ++ comfort_advice b.

(** The five wind bands, thresholds at 5, 12, 20 and 30 kph. *)
Inductive wind_band : Type :=
  | VeryLightBreeze
  | GentleBreeze
  | ModerateWind
  | StrongWind
  | VeryStrongWind.

Definition in_wind_band (b : wind_band) (v : Q) : Prop :=
  match b with
  | VeryLightBreeze => (0 <= v)%Q /\ (v < 5)%Q
  | GentleBreeze => (5 <= v)%Q /\ (v < 12)%Q
  | ModerateWind => (12 <= v)%Q /\ (v < 20)%Q
  | StrongWind => (20 <= v)%Q /\ (v < 30)%Q
  | VeryStrongWind => (30 <= v)%Q
  end.

Definition wind_text (b : wind_band) : string :=
  match b with
  | VeryLightBreeze => "very light breeze"
  | GentleBreeze => "gentle breeze"
  | ModerateWind => "moderate wind"
  | StrongWind => "strong wind"
  | VeryStrongWind => "very strong wind"
  end.

(** The six air-quality bands by index, read off as a plain case table. *)
Definition aqi_band_text (index : Z) : string :=
  match index with
  | 1 => "Good - Air quality is satisfactory, and air pollution poses little or no risk."
  | 2 => "Moderate - Air quality is acceptable. However, there may be a risk for some people, particularly those who are unusually sensitive to air pollution."
  | 3 => "Unhealthy for Sensitive Groups - Members of sensitive groups may experience health effects. The general public is less likely to be affected."
  | 4 => "Unhealthy - Some members of the general public may experience health effects; members of sensitive groups may experience more serious health effects"
  | 5 => "Very Unhealthy - Health alert: The risk of health effects is increased for everyone."
  | 6 => "Hazardous - Health warnings of emergency conditions. The entire population is more likely to be affected."
  | _ => "Unknown"
  end.

(** The value found by following a path of keys through nested dicts. *)
Fixpoint at_path (v : pyval) (path : list string) : option pyval :=
  match path with
  | [] => Some v
  | key :: rest =>
      match v with
      | VDict d =>
          match d !! key with
          | Some x => at_path x rest
          | None => None
          end
      | _ => None
      end
  end.

(** A finite number of the data model: an int or a float. *)
Inductive number : Type :=
  | NInt (z : Z)
  | NFloat (q : Q).

Definition number_val (n : number) : pyval :=
  match n with
  | NInt z => VInt z
  | NFloat q => VFloat (FFin q)
  end.

Definition number_Q (n : number) : Q :=
  match n with
  | NInt z => inject_Z z
  | NFloat q => q
  end.

(** The fields of a weather observation the summary reads, typed as the
    data model types them. *)
Record observation : Type := Observation {
  obs_city : string;
  obs_temperature : number;
  obs_feelslike : number;
  obs_humidity : Z;
  obs_wind : number;
  obs_condition : string;
  obs_is_day : Z
}.

(** [weather_data] is well formed and holds the observation [o]: every field
    sits where the API document puts it, with its type.  Other keys may be
    present. *)
Definition observes (weather_data : pyval) (o : observation) : Prop :=
  at_path weather_data ["location"; "name"] = Some (VStr (obs_city o))
  /\ at_path weather_data ["current"; "temp_c"] = Some (number_val (obs_temperature o))
  /\ at_path weather_data ["current"; "feelslike_c"] = Some (number_val (obs_feelslike o))
  /\ at_path weather_data ["current"; "humidity"] = Some (VInt (obs_humidity o))
  /\ at_path weather_data ["current"; "wind_kph"] = Some (number_val (obs_wind o))
  /\ at_path weather_data ["current"; "condition"; "text"] = Some (VStr (obs_condition o))
  /\ at_path weather_data ["current"; "is_day"] = Some (VInt (obs_is_day o)).

Definition is_number (v : pyval) : bool :=
  match as_number v with
  | Some _ => true
  | None => false
  end.

Definition is_str (v : pyval) : bool :=
  match v with
  | VStr _ => true
  | _ => false
  end.

Definition has (weather_data : pyval) (path : list string) (test : pyval -> bool) : bool :=
  match at_path weather_data path with
  | Some x => test x
  | None => false
  end.

(** What the summary template needs of its input: the seven fields present,
    the three it compares numeric, the condition text a string. *)
Definition summary_ready (weather_data : pyval) : bool :=
  has weather_data ["current"; "temp_c"] is_number
  && has weather_data ["current"; "feelslike_c"] is_number
  && has weather_data ["current"; "condition"; "text"] is_str
  && has weather_data ["current"; "humidity"] (fun _ => true)
  && has weather_data ["current"; "wind_kph"] is_number
  && has weather_data ["current"; "is_day"] (fun _ => true)
  && has weather_data ["location"; "name"] (fun _ => true).

(** A value the interpreter can put into text: anything but an int with
    more digits than it converts, or a list or dict whose text cannot be
    made. *)
Definition printable (py : builtins) (v : pyval) : bool :=
  match py_str py v with
  | Return _ => true
  | Raise _ => false
  end.

(** The numbers of an observation can be printed. *)
Definition observation_printable (py : builtins) (o : observation) : bool :=
  printable py (number_val (obs_temperature o))
  && printable py (number_val (obs_feelslike o))
  && printable py (VInt (obs_humidity o))
  && printable py (number_val (obs_wind o)).

(** The five values the summary template prints can be printed. *)
Definition summary_printable (py : builtins) (weather_data : pyval) : bool :=
  has weather_data ["location"; "name"] (printable py)
  && has weather_data ["current"; "temp_c"] (printable py)
  && has weather_data ["current"; "feelslike_c"] (printable py)
  && has weather_data ["current"; "humidity"] (printable py)
  && has weather_data ["current"; "wind_kph"] (printable py).

(** The template can be filled in. *)
Definition summary_fills (py : builtins) (weather_data : pyval) : bool :=
  summary_ready weather_data && summary_printable py weather_data.




(** Reading a trace. *)
Definition is_lookup (ev : event) : bool :=
  match ev with
  | HttpGet _ => true
  | _ => false
  end.

Definition is_insight_request (ev : event) : bool :=
  match ev with
  | ChatCompletion _ _ _ => true
  | _ => false
  end.

Definition is_error_report (ev : event) : bool :=
  match ev with
  | StError _ => true
  | _ => false
  end.

Definition lookups (t : list event) : list event := List.filter is_lookup t.
Definition insight_requests (t : list event) : list event := List.filter is_insight_request t.
Definition error_reports (t : list event) : list event := List.filter is_error_report t.

(** ** Sample runs *)

(** A runtime and services to evaluate the program on concrete inputs.  The
    runtime is CPython 3.11 restricted to what the samples use: ASCII text,
    ints, floats of integral value (printed with one zero decimal), and
    [eval] of the three keyword constants, which does nothing but return.
    Outside that domain it is a stand-in only: a container prints as an
    ellipsis, any other text given to [eval] is answered with a syntax error,
    and no object of another class ever arises. *)
Module Sample.

Definition float_repr_integral (q : Q) : string := Text.str_int (Qfloor q) ++ ".0".

Definition is_blank (c : ascii) : bool :=
  let n := nat_of_ascii c in
  ((n =? 32) || ((9 <=? n) && (n <=? 13)))%nat.

Fixpoint lstrip (s : string) : string :=
  match s with
  | EmptyString => EmptyString
  | String c s' => if is_blank c then lstrip s' else s
  end.

Fixpoint rstrip (s : string) : string :=
  match s with
  | EmptyString => EmptyString
  | String c s' =>
      match rstrip s' with
      | EmptyString => if is_blank c then EmptyString else String c EmptyString
      | rest => String c rest
      end
  end.

Definition strip (s : string) : string := rstrip (lstrip s).

Definition capitalize (s : string) : string :=
  match s with
  | EmptyString => EmptyString
  | String c s' => String (Text.upper_ascii_char c) (Text.lower_ascii s')
  end.

Definition eval_keyword (s : string) : outcome pyval :=
  if String.eqb s "None" then Return VNone
  else if String.eqb s "True" then Return (VBool true)
  else if String.eqb s "False" then Return (VBool false)
  else Raise (Exc SyntaxError "invalid syntax").

Definition returning (o : outcome pyval) : foreign_run :=
  {| run_outcome := v ← o; Return (Plain v);
     run_events := [];
     run_leaves := unchanged |}.

Definition cpython : builtins :=
  {| int_max_str_digits := 4300;
     float_repr := float_repr_integral;
     container_repr := fun _ => inl "...";
     str_lower := Text.lower_ascii;
     str_capitalize := capitalize;
     str_strip := strip;
     builtin_eval := fun _ text => returning (eval_keyword text);
     opaque_getitem := fun _ _ => returning (Raise (Exc TypeError "object is not subscriptable"));
     opaque_show := fun _ => returning (Return VNone) |}.

(** Two replies that do something when evaluated: one asks the chat client
    again and evaluates to the response object it gets, one empties the
    [current] dict of the document and evaluates to [None]. *)
Definition ask_again : string :=
  "self.client.chat.completions.create(model='gpt-4', messages=[{'role': 'system', 'content': 'Go on.'}, {'role': 'user', 'content': prompt}])".

Definition clear_current : string := "weather_data['current'].clear()".

(** The runtime above with an [eval] that also knows these two replies.
    The one object of another class it makes, the response to the second
    request, cannot be subscripted. *)
Definition eval_scripted (scope : eval_scope) (text : string) : foreign_run :=
  if String.eqb text ask_again then
    {| run_outcome :=
         match chat_completions_create (scope_self scope) "gpt-4" "Go on."
                 (scope_prompt scope) with
         | Return _ => Return (Opaque 1)
         | Raise e => Raise e
         end;
       run_events := [ChatCompletion "gpt-4" "Go on." (scope_prompt scope)];
       run_leaves := unchanged |}
  else if String.eqb text clear_current then
    {| run_outcome := Return (Plain VNone);
       run_events := [];
       run_leaves := fun path v =>
                       if bool_decide (path = ["current"]) then VDict ∅ else v |}
  else returning (eval_keyword text).

Definition scripted : builtins :=
  {| int_max_str_digits := 4300;
     float_repr := float_repr_integral;
     container_repr := fun _ => inl "...";
     str_lower := Text.lower_ascii;
     str_capitalize := capitalize;
     str_strip := strip;
     builtin_eval := eval_scripted;
     opaque_getitem := fun _ _ =>
       returning (Raise (Exc TypeError "'ChatCompletion' object is not subscriptable"));
     opaque_show := fun _ => returning (Return VNone) |}.

(** The observation of the specification's example: London, feels like 5,
    wind 8 kph, air-quality index 2, by day. *)
Definition london : pyval :=
  VDict (<["location" :=
            VDict (<["name" := VStr "London"]>
                  (<["country" := VStr "United Kingdom"]>
                  (<["lat" := VInt 51]>
                  (<["lon" := VInt 0]> ∅))))]>
        (<["current" :=
            VDict (<["temp_c" := VInt 7]>
                  (<["feelslike_c" := VInt 5]>
                  (<["heatindex_c" := VInt 7]>
                  (<["humidity" := VInt 80]>
                  (<["wind_kph" := VInt 8]>
                  (<["wind_dir" := VStr "W"]>
                  (<["is_day" := VInt 1]>
                  (<["last_updated" := VStr "2024-01-01 12:00"]>
                  (<["condition" :=
                      VDict (<["text" := VStr "Partly cloudy"]>
                            (<["icon" := VStr "//cdn.weatherapi.com/weather/64x64/day/116.png"]> ∅))]>
                  (<["air_quality" := VDict (<["us-epa-index" := VInt 2]> ∅)]>
                   ∅))))))))))]> ∅)).

Definition london_observation : observation :=
  {| obs_city := "London";
     obs_temperature := NInt 7;
     obs_feelslike := NInt 5;
     obs_humidity := 80;
     obs_wind := NInt 8;
     obs_condition := "Partly cloudy";
     obs_is_day := 1 |}.

(** Two documents with a field missing. *)
Definition no_current : pyval :=
  VDict (<["location" := VDict (<["name" := VStr "London"]> ∅)]> ∅).

Definition no_location : pyval :=
  match london with
  | VDict d => VDict (delete "location" d)
  | other => other
  end.

(** A document whose humidity is text: malformed, and yet nothing the
    template trips over. *)
Definition humidity_as_text : pyval :=
  match london with
  | VDict d =>
      match d !! "current" with
      | Some (VDict c) => VDict (<["current" := VDict (<["humidity" := VStr "high"]> c)]> d)
      | _ => london
      end
  | other => other
  end.

(** London's document with one reading of [current] replaced. *)
Definition with_reading (key : string) (v : pyval) : pyval :=
  match london with
  | VDict d =>
      match d !! "current" with
      | Some (VDict c) => VDict (<["current" := VDict (<[key := v]> c)]> d)
      | _ => london
      end
  | other => other
  end.

(** Services whose HTTP client cannot connect. *)
Definition offline : world :=
  {| requests_get := fun url =>
       Raise (Exc ConnectionError "Max retries exceeded with url: /v1/current.json");
     OpenAI := fun _ => Return tt;
     chat_completions_create := fun _ _ _ => Return (ChatResponse [Some "None"]) |}.

Definition with_keys : environ :=
  {| WEATHER_API_KEY := Some "wkey"; OPENAI_API_KEY := Some "okey" |}.

Definition no_weather_key : environ :=
  {| WEATHER_API_KEY := None; OPENAI_API_KEY := Some "okey" |}.

Definition no_openai_key : environ :=
  {| WEATHER_API_KEY := Some "wkey"; OPENAI_API_KEY := None |}.

(** The constructor of the OpenAI client refuses a missing key. *)
Definition openai_client (key : option string) : outcome unit :=
  match key with
  | Some _ => Return tt
  | None =>
      Raise (Exc OpenAIError
               "The api_key client option must be set either by passing api_key to the client or by setting the OPENAI_API_KEY environment variable")
  end.

Definition ok_response (url : string) : http_response :=
  {| status_code := 200; reason := "OK"; response_url := url; json := Return london |}.


(** Services that answer every lookup with London and every prompt with
    [reply]. *)
Definition replying (reply : string) : world :=
  {| requests_get := fun url => Return (ok_response url);
     OpenAI := openai_client;
     chat_completions_create := fun _ _ _ => Return (ChatResponse [Some reply]) |}.


(** London's document with one part taken out of [current] or of the top
    level. *)
Definition without_current_key (key : string) : pyval :=
  match london with
  | VDict d =>
      match d !! "current" with
      | Some (VDict c) => VDict (<["current" := VDict (delete key c)]> d)
      | _ => london
      end
  | other => other
  end.

Definition no_air_quality : pyval := without_current_key "air_quality".

(** Services whose chat endpoint cannot be reached. *)
Definition chat_down : world :=
  {| requests_get := fun url => Return (ok_response url);
     OpenAI := openai_client;
     chat_completions_create := fun _ _ _ => Raise (Exc OpenAIError "Connection error.") |}.

(** Services whose model answers with no choice at all. *)
Definition no_choices : world :=
  {| requests_get := fun url => Return (ok_response url);
     OpenAI := openai_client;
     chat_completions_create := fun _ _ _ => Return (ChatResponse []) |}.

(** Services whose weather API answers 200 with a document that has no
    [location]. *)
Definition partial_document : world :=
  {| requests_get := fun url =>
       Return {| status_code := 200; reason := "OK"; response_url := url;
                 json := Return no_location |};
     OpenAI := openai_client;
     chat_completions_create := fun _ _ _ => Return (ChatResponse [Some "None"]) |}.

(** Services whose weather API answers 200 with a body that is not JSON,
    under a client that reports it with a plain [ValueError]. *)
Definition garbled_body : world :=
  {| requests_get := fun url =>
       Return {| status_code := 200; reason := "OK"; response_url := url;
                 json := Raise (Exc ValueError "Expecting value: line 1 column 1 (char 0)") |};
     OpenAI := openai_client;
     chat_completions_create := fun _ _ _ => Return (ChatResponse [Some "None"]) |}.

(** Services whose HTTP client raises [HTTPError] from the request itself. *)
Definition failing_request : world :=
  {| requests_get := fun url => Raise (Exc HTTPError "503 Server Error");
     OpenAI := openai_client;
     chat_completions_create := fun _ _ _ => Return (ChatResponse [Some "None"]) |}.

(** A hot afternoon: feels like 31 at 30 degrees. *)
Definition seville_observation : observation :=
  {| obs_city := "Seville";
     obs_temperature := NInt 30;
     obs_feelslike := NInt 31;
     obs_humidity := 20;
     obs_wind := NInt 3;
     obs_condition := "Sunny";
     obs_is_day := 1 |}.

Definition seville : pyval :=
  VDict (<["location" := VDict (<["name" := VStr "Seville"]> ∅)]>
        (<["current" :=
            VDict (<["temp_c" := VInt 30]>
                  (<["feelslike_c" := VInt 31]>
                  (<["humidity" := VInt 20]>
                  (<["wind_kph" := VInt 3]>
                  (<["is_day" := VInt 1]>
                  (<["condition" := VDict (<["text" := VStr "Sunny"]> ∅)]> ∅))))))]> ∅)).

End Sample.

(** ** Properties of blocks *)

(** Whatever the block raises derives from [Exception]. *)
Definition ordinary {A} (m : outcome A) : Prop :=
  match m with
  | Return _ => True
  | Raise e => isinstance e Exception = true
  end.

(** A block that returns, with a result satisfying [P]. *)
Definition yields {A} (P : A -> Prop) (m : outcome A) : Prop :=
  match m with
  | Return a => P a
  | Raise _ => False
  end.

Definition anything {A} (a : A) : Prop := True.

(** A block that neither looks up weather nor asks for insights. *)
Definition silent {A} (m : io A) : Prop :=
  lookups (snd m) = [] /\ insight_requests (snd m) = [].

(** ** Further readings of documents, runs and traces *)

(** A value a dict can be looked up with: anything but a list or a dict. *)
Definition hashable (v : pyval) : bool :=
  match v with
  | VList _ | VDict _ => false
  | _ => true
  end.

Definition present (v : pyval) : bool := true.

(** What [analyze_weather] needs of its input before it can ask the model:
    the eight readings and the city name present, the two readings it
    classifies numeric, the air-quality index hashable. *)
Definition insight_ready (weather_data : pyval) : bool :=
  has weather_data ["current"; "temp_c"] present
  && has weather_data ["current"; "condition"; "text"] present
  && has weather_data ["current"; "humidity"] present
  && has weather_data ["current"; "wind_kph"] is_number
  && has weather_data ["current"; "air_quality"; "us-epa-index"] hashable
  && has weather_data ["current"; "feelslike_c"] is_number
  && has weather_data ["current"; "heatindex_c"] present
  && has weather_data ["current"; "is_day"] present
  && has weather_data ["location"; "name"] present.

(** The eight values the prompt prints can be printed. *)
Definition insight_printable (py : builtins) (weather_data : pyval) : bool :=
  has weather_data ["current"; "temp_c"] (printable py)
  && has weather_data ["current"; "feelslike_c"] (printable py)
  && has weather_data ["current"; "heatindex_c"] (printable py)
  && has weather_data ["current"; "humidity"] (printable py)
  && has weather_data ["current"; "condition"; "text"] (printable py)
  && has weather_data ["current"; "wind_kph"] (printable py)
  && has weather_data ["current"; "air_quality"; "us-epa-index"] (printable py)
  && has weather_data ["location"; "name"] (printable py).

(** The statements of [analyze_weather] that come before the chat call: the
    eight readings, then the prompt. *)
Definition prepared_prompt (py : builtins) (weather_data : pyval) : outcome string :=
  current ← getitem weather_data "current";
  temp_c ← getitem current "temp_c";
  condition ← (c ← getitem current "condition"; getitem c "text");
  humidity ← getitem current "humidity";
  wind_kph ← getitem current "wind_kph";
  aqi ← (a ← getitem current "air_quality"; getitem a "us-epa-index");
  feels_like ← getitem current "feelslike_c";
  heat_index ← getitem current "heatindex_c";
  is_day ← getitem current "is_day";
  analysis_prompt py weather_data temp_c condition humidity wind_kph aqi feels_like
    heat_index is_day.

(** The names the reply evaluated in a call of [analyze_weather] can
    reach. *)
Definition scope_of (w : world) (wd : pyval) (prompt : string) (response : chat_response)
  : eval_scope :=
  {| scope_self := w;
     scope_weather_data := wd;
     scope_prompt := prompt;
     scope_response := response |}.

(** The test [if not WEATHER_API_KEY] of [main] lets the run go on. *)
Definition configured (env : environ) : bool :=
  match WEATHER_API_KEY env with
  | Some key => negb (String.eqb key EmptyString)
  | None => false
  end.

(** The bands in order, coldest and calmest first. *)
Definition comfort_rank (b : comfort_band) : nat :=
  match b with
  | ExtremelyCold => 0
  | VeryColdToFrigid => 1
  | Cold => 2
  | CoolToMild => 3
  | Warm => 4
  | Hot => 5
  | ExtremelyHot => 6
  end.

Definition wind_rank (b : wind_band) : nat :=
  match b with
  | VeryLightBreeze => 0
  | GentleBreeze => 1
  | ModerateWind => 2
  | StrongWind => 3
  | VeryStrongWind => 4
  end.

(** The closing advice and the wind-chill remark of the summary, by the
    thresholds of the template. *)
Definition advice_for (o : observation) : string :=
  if Qlt_bool (number_Q (obs_feelslike o)) 10 then "Remember to layer up"
  else if Qlt_bool 25 (number_Q (obs_temperature o)) then "Stay hydrated"
  else "Enjoy the pleasant weather".

Definition chill_for (o : observation) : string :=
  if Qlt_bool (number_Q (obs_feelslike o)) (number_Q (obs_temperature o))
  then ", which adds to the cold sensation"
  else EmptyString.

Definition is_write (ev : event) : bool :=
  match ev with
  | StWrite _ => true
  | _ => false
  end.

Definition is_print (ev : event) : bool :=
  match ev with
  | Print _ => true
  | _ => false
  end.


Definition writes (t : list event) : list event := List.filter is_write t.

(** A block that causes no event of the kind [f]. *)
Definition free_of {A} (f : event -> bool) (m : io A) : Prop :=
  List.filter f (snd m) = [].


Arguments _get_temp_description feelslike_c : simpl never.

(** ** Comparisons of numbers, as facts about rationals *)

Lemma Qlt_bool_iff (a b : Q) : Qlt_bool a b = true <-> (a < b)%Q.
Proof.
  unfold Qlt_bool. rewrite negb_true_iff, <- not_true_iff_false, Qle_bool_iff.
  split; [apply Qnot_le_lt | apply Qlt_not_le].
Qed.

Lemma Qlt_bool_false_iff (a b : Q) : Qlt_bool a b = false <-> (b <= a)%Q.
Proof.
  unfold Qlt_bool. rewrite negb_false_iff. apply Qle_bool_iff.
Qed.

Lemma float_lt_fin (a b : Q) : float_lt (FFin a) (FFin b) = true <-> (a < b)%Q.
Proof. apply Qlt_bool_iff. Qed.

Lemma float_le_fin (a b : Q) : float_le (FFin a) (FFin b) = true <-> (a <= b)%Q.
Proof.
  unfold float_le; simpl. rewrite orb_true_iff, Qlt_bool_iff, Qeq_bool_iff.
  split.
  - intros [H | H]; [apply Qlt_le_weak, H | rewrite H; apply Qle_refl].
  - intros H. destruct (Qlt_le_dec a b) as [Hlt | Hge]; [now left | right].
    apply Qle_antisym; assumption.
Qed.

Lemma float_le_fin_false (a b : Q) : float_le (FFin a) (FFin b) = false <-> (b < a)%Q.
Proof.
  rewrite <- not_true_iff_false, float_le_fin.
  split; [apply Qnot_le_lt | apply Qlt_not_le].
Qed.

Lemma float_lt_fin_false (a b : Q) : float_lt (FFin a) (FFin b) = false <-> (b <= a)%Q.
Proof. apply Qlt_bool_false_iff. Qed.

Section NumericInput.

Variables (x : pyval) (v : Q).
Hypothesis Hx : as_number x = Some (FFin v).

Lemma py_lt_number (c : Z) : py_lt x (VInt c) = Return (Qlt_bool v (inject_Z c)).
Proof. unfold py_lt. now rewrite Hx. Qed.

Lemma py_ge_number (c : Z) : py_ge x (VInt c) = Return (float_le (FFin (inject_Z c)) (FFin v)).
Proof. unfold py_ge. now rewrite Hx. Qed.

Lemma py_gt_number (c : Z) : py_gt x (VInt c) = Return (Qlt_bool (inject_Z c) v).
Proof. unfold py_gt. now rewrite Hx. Qed.

Lemma chained_le_lt_number (lo hi : Z) :
  chained_le_lt lo x hi =
  Return (float_le (FFin (inject_Z lo)) (FFin v) && Qlt_bool v (inject_Z hi)).
Proof.
  unfold chained_le_lt, py_le, py_lt. rewrite Hx. simpl.
  now destruct (float_le _ _).
Qed.

End NumericInput.

(** ** The rule-based descriptors *)

Lemma comfort_band_exclusive (v : Q) (b b' : comfort_band) :
  in_comfort_band b v -> in_comfort_band b' v -> b' = b.
Proof.
  destruct b, b'; simpl; intros; try reflexivity; exfalso; lra.
Qed.

Lemma comfort_band_total (v : Q) : exists b, in_comfort_band b v.
Proof.
  destruct (Qlt_le_dec v (-20)); [now exists ExtremelyCold |].
  destruct (Qlt_le_dec v 0); [now exists VeryColdToFrigid |].
  destruct (Qlt_le_dec v 15); [now exists Cold |].
  destruct (Qlt_le_dec v 25); [now exists CoolToMild |].
  destruct (Qlt_le_dec v 30); [now exists Warm |].
  destruct (Qlt_le_dec v 40); [now exists Hot |].
  now exists ExtremelyHot.
Qed.

(** Turn the comparisons the classifiers evaluate into facts on the
    rational they compare. *)
Ltac decide_comparisons :=
  repeat (match goal with
          | |- context [Qlt_bool ?a ?b] =>
              let H := fresh "Hcmp" in
              destruct (Qlt_bool a b) eqn:H;
              [apply Qlt_bool_iff in H | apply Qlt_bool_false_iff in H]
          | |- context [float_le (FFin ?a) (FFin ?b)] =>
              let H := fresh "Hcmp" in
              destruct (float_le (FFin a) (FFin b)) eqn:H;
              [apply float_le_fin in H | apply float_le_fin_false in H]
          end;
          try (exfalso; lra)).

Lemma temp_description_of_band (x : pyval) (v : Q) (b : comfort_band) :
  as_number x = Some (FFin v) ->
  in_comfort_band b v ->
  _get_temp_description x = Return (comfort_text b).
Proof.
  intros Hx Hb. unfold _get_temp_description.
  rewrite (py_lt_number x v Hx), (py_ge_number x v Hx),
    !(chained_le_lt_number x v Hx).
  unfold inject_Z in *.
  destruct b; simpl in Hb; decide_comparisons; reflexivity.
Qed.

(** C2: every real feels-like value lies in exactly one of the seven bands
    bounded by -20, 0, 15, 25, 30 and 40 (lower ends closed, the outer bands
    open-ended), and the classifier returns that band's fixed text. *)
Theorem temp_description_partition (x : pyval) (v : Q) :
  as_number x = Some (FFin v) ->
  exists b : comfort_band,
    in_comfort_band b v
    /\ (forall b', in_comfort_band b' v -> b' = b)
    /\ _get_temp_description x = Return (comfort_text b).
Proof.
  intros Hx. destruct (comfort_band_total v) as [b Hb].
  exists b. split; [exact Hb | split].
  - intros b' Hb'. exact (comfort_band_exclusive v b b' Hb Hb').
  - exact (temp_description_of_band x v b Hx Hb).
Qed.

(** At the boundary 0 the band is the one from 0 to 15, not the one below. *)
Lemma temp_description_partition_at_zero :
  exists b : comfort_band,
    in_comfort_band b 0
    /\ (forall b', in_comfort_band b' 0 -> b' = b)
    /\ _get_temp_description (VFloat (FFin 0)) = Return (comfort_text b).
Proof. exact (temp_description_partition (VFloat (FFin 0)) 0 eq_refl). Defined.

Example temp_description_zero_is_cold :
  _get_temp_description (VInt 0)
  = Return "Cold – Need warm clothing, exposure could be uncomfortable".
Proof. reflexivity. Qed.

Example temp_description_nan :
  _get_temp_description (VFloat FNaN) = Return "Unknown temperature comfort level".
Proof. reflexivity. Qed.

Lemma wind_band_exclusive (v : Q) (b b' : wind_band) :
  in_wind_band b v -> in_wind_band b' v -> b' = b.
Proof.
  destruct b, b'; simpl; intros; try reflexivity; exfalso; lra.
Qed.

Lemma wind_band_total (v : Q) : (0 <= v)%Q -> exists b, in_wind_band b v.
Proof.
  intros Hv.
  destruct (Qlt_le_dec v 5); [now exists VeryLightBreeze |].
  destruct (Qlt_le_dec v 12); [now exists GentleBreeze |].
  destruct (Qlt_le_dec v 20); [now exists ModerateWind |].
  destruct (Qlt_le_dec v 30); [now exists StrongWind |].
  now exists VeryStrongWind.
Qed.

Lemma wind_description_of_band (x : pyval) (v : Q) (b : wind_band) :
  as_number x = Some (FFin v) ->
  in_wind_band b v ->
  _get_wind_description x = Return (wind_text b).
Proof.
  intros Hx Hb. unfold _get_wind_description.
  rewrite !(py_lt_number x v Hx).
  unfold inject_Z in *.
  destruct b; simpl in Hb; decide_comparisons; reflexivity.
Qed.

(** C7: every wind speed of at least 0 lies in exactly one of the five bands
    with thresholds 5, 12, 20 and 30 (lower ends closed), and the descriptor
    returns that band's fixed text. *)
Theorem wind_description_partition (x : pyval) (v : Q) :
  as_number x = Some (FFin v) ->
  (0 <= v)%Q ->
  exists b : wind_band,
    in_wind_band b v
    /\ (forall b', in_wind_band b' v -> b' = b)
    /\ _get_wind_description x = Return (wind_text b).
Proof.
  intros Hx Hv. destruct (wind_band_total v Hv) as [b Hb].
  exists b. split; [exact Hb | split].
  - intros b' Hb'. exact (wind_band_exclusive v b b' Hb Hb').
  - exact (wind_description_of_band x v b Hx Hb).
Qed.

(** At the threshold 5 the band is the one from 5 to 12. *)
Lemma wind_description_partition_at_five :
  exists b : wind_band,
    in_wind_band b 5
    /\ (forall b', in_wind_band b' 5 -> b' = b)
    /\ _get_wind_description (VInt 5) = Return (wind_text b).
Proof.
  apply (wind_description_partition (VInt 5) 5 eq_refl).
  unfold Qle; simpl; lia.
Defined.

Example wind_description_five_is_gentle :
  _get_wind_description (VInt 5) = Return "gentle breeze".
Proof. reflexivity. Qed.

Lemma aqi_levels_lookup (k : Z) :
  default "Unknown" (aqi_levels !! k) = aqi_band_text k.
Proof.
  unfold aqi_levels.
  destruct (decide (k = 1)) as [-> | H1]; [reflexivity |].
  destruct (decide (k = 2)) as [-> | H2]; [reflexivity |].
  destruct (decide (k = 3)) as [-> | H3]; [reflexivity |].
  destruct (decide (k = 4)) as [-> | H4]; [reflexivity |].
  destruct (decide (k = 5)) as [-> | H5]; [reflexivity |].
  destruct (decide (k = 6)) as [-> | H6]; [reflexivity |].
  rewrite !lookup_insert_ne, lookup_empty by congruence.
  destruct k as [| p | p]; try reflexivity.
  do 3 (destruct p as [p | p |]; try reflexivity; try congruence).
Qed.

Lemma as_int_key_int (z : Z) : as_int_key (VInt z) = Some z.
Proof.
  unfold as_int_key. cbn [as_number]. rewrite Qfloor_Z.
  now rewrite (proj2 (Qeq_bool_iff _ _) (Qeq_refl _)).
Qed.

Lemma aqi_band_text_outside (z : Z) :
  (1 <=? z) && (z <=? 6) = false -> aqi_band_text z = "Unknown".
Proof.
  intros H. destruct z as [| p | p]; try reflexivity.
  do 3 (destruct p as [p | p |]; try reflexivity; try discriminate H).
Qed.

(** C8: for every integer index the air-quality descriptor returns, without
    failing, the band's documented text when the index is one of 1 to 6 and
    the sentinel "Unknown" otherwise; the seven texts are pairwise distinct,
    so each index falls in exactly one class. *)
Theorem aqi_description_classifies (z : Z) :
  _get_aqi_description (VInt z)
  = Return (if (1 <=? z) && (z <=? 6) then aqi_band_text z else "Unknown")
  /\ NoDup (List.map aqi_band_text [1; 2; 3; 4; 5; 6; 7]).
Proof.
  split.
  - unfold _get_aqi_description. rewrite as_int_key_int, aqi_levels_lookup.
    destruct ((1 <=? z) && (z <=? 6)) eqn:Hz; [reflexivity |].
    now rewrite aqi_band_text_outside.
  - apply (bool_decide_unpack _). vm_compute. exact I.
Qed.

Example aqi_description_moderate :
  Text.starts_with "Moderate" (aqi_band_text 2) = true
  /\ _get_aqi_description (VInt 2) = Return (aqi_band_text 2)
  /\ _get_aqi_description (VInt 0) = Return "Unknown"
  /\ _get_aqi_description (VInt 7) = Return "Unknown".
Proof. repeat split; reflexivity. Qed.

Lemma py_eq_int_int (z n : Z) : py_eq_int (VInt z) n = (z =? n).
Proof.
  unfold py_eq_int; simpl. unfold Qeq_bool; simpl.
  now rewrite !Z.mul_1_r.
Qed.

(** C9: for every integer value of the flag the mapping gives "day" when the
    value is 1 and "night" for any other value. *)
Theorem day_night_description_int (z : Z) :
  _get_day_night_description (VInt z) = if z =? 1 then "day" else "night".
Proof.
  unfold _get_day_night_description. now rewrite py_eq_int_int.
Qed.

(** ** Substrings *)

Lemma starts_with_app (x rest : string) : Text.starts_with x (x ++ rest) = true.
Proof.
  induction x as [| c x IH]; simpl; [reflexivity |].
  now rewrite Ascii.eqb_refl.
Qed.

Lemma contains_here (x rest : string) : Text.contains x (x ++ rest) = true.
Proof.
  destruct (x ++ rest) eqn:E; simpl; rewrite <- E, starts_with_app; reflexivity.
Qed.

Lemma contains_app_r (x a rest : string) :
  Text.contains x rest = true -> Text.contains x (a ++ rest) = true.
Proof.
  intros H. induction a as [| c a IH]; simpl; [exact H |].
  rewrite IH. apply orb_true_r.
Qed.

(** Walk a right-nested concatenation up to the piece looked for. *)
Ltac find_piece :=
  repeat first [ apply contains_here | apply contains_app_r ].

Section Template.

Variables time_of_day location_name comfort condition_lower temp feels_like
          humidity wind_desc wind_kph chill advice : string.

Let s := summary_template time_of_day location_name comfort condition_lower temp
           feels_like humidity wind_desc wind_kph chill advice.

Lemma template_nonempty : s <> EmptyString.
Proof. discriminate. Qed.

Lemma template_opening : Text.starts_with "During the " s = true.
Proof. reflexivity. Qed.

Lemma template_time_of_day : Text.contains time_of_day s = true.
Proof. unfold s, summary_template. find_piece. Qed.

Lemma template_location : Text.contains location_name s = true.
Proof. unfold s, summary_template. find_piece. Qed.

Lemma template_comfort : Text.contains comfort s = true.
Proof. unfold s, summary_template. find_piece. Qed.

Lemma template_temp : Text.contains temp s = true.
Proof. unfold s, summary_template. find_piece. Qed.

Lemma template_feels_like : Text.contains feels_like s = true.
Proof. unfold s, summary_template. find_piece. Qed.

End Template.

(** ** The summary composer *)

Lemma bind_Return_inv {A B} (m : outcome A) (k : A -> outcome B) (b : B) :
  (m ≫= k) = Return b -> exists a, m = Return a /\ k a = Return b.
Proof. destruct m as [a | e]; [now exists a | discriminate]. Qed.

Lemma getitem_Return (v : pyval) (key : string) (x : pyval) :
  getitem v key = Return x <-> exists d, v = VDict d /\ d !! key = Some x.
Proof.
  split.
  - destruct v; try discriminate. simpl.
    destruct (d !! key) eqn:E; [| discriminate].
    intros [= ->]. now exists d.
  - intros (d & -> & E). simpl. now rewrite E.
Qed.

Lemma at_path_cons (v : pyval) (key : string) (rest : list string) (x : pyval) :
  at_path v (key :: rest) = Some x <->
  exists c, getitem v key = Return c /\ at_path c rest = Some x.
Proof.
  split.
  - destruct v; try discriminate. cbn [at_path].
    destruct (d !! key) as [c |] eqn:E; [| discriminate].
    intros H. exists c. split; [| exact H]. simpl. now rewrite E.
  - intros (c & Hc & H). apply getitem_Return in Hc as (d & -> & E).
    cbn [at_path]. now rewrite E.
Qed.

Lemma number_val_number (n : number) : as_number (number_val n) = Some (FFin (number_Q n)).
Proof. now destruct n. Qed.

Lemma first_piece_of_comfort_text (b : comfort_band) :
  first_item (Text.split " – " (comfort_text b)) = Return (comfort_phrase b).
Proof. destruct b; reflexivity. Qed.

Lemma wind_description_returns (x : pyval) (v : Q) :
  as_number x = Some (FFin v) -> exists s, _get_wind_description x = Return s.
Proof.
  intros Hx. unfold _get_wind_description. rewrite !(py_lt_number x v Hx).
  repeat match goal with
    | |- context [Qlt_bool ?a ?b] => destruct (Qlt_bool a b)
    end; eexists; reflexivity.
Qed.

Lemma py_lt_numbers (a b : pyval) (p q : Q) :
  as_number a = Some (FFin p) -> as_number b = Some (FFin q) ->
  py_lt a b = Return (Qlt_bool p q).
Proof. intros Ha Hb. unfold py_lt. now rewrite Ha, Hb. Qed.

Lemma printable_text (py : builtins) (v : pyval) :
  printable py v = true -> exists text, py_str py v = Return text.
Proof.
  unfold printable. destruct (py_str py v) as [text | e]; [now exists text | discriminate].
Qed.

Lemma text_printable (py : builtins) (v : pyval) (text : string) :
  py_str py v = Return text -> printable py v = true.
Proof. unfold printable. now intros ->. Qed.

Lemma py_str_str (py : builtins) (s : string) : py_str py (VStr s) = Return s.
Proof. reflexivity. Qed.

(** On a well-formed document whose numbers can be printed the block returns
    the template filled in, with the wind-chill remark and the advice the
    thresholds select. *)
Lemma summary_body_observed (py : builtins) (wd : pyval) (o : observation)
      (temp_text feels_text humidity_text wind_text : string) :
  observes wd o ->
  py_str py (number_val (obs_temperature o)) = Return temp_text ->
  py_str py (number_val (obs_feelslike o)) = Return feels_text ->
  py_str py (VInt (obs_humidity o)) = Return humidity_text ->
  py_str py (number_val (obs_wind o)) = Return wind_text ->
  exists (b : comfort_band) (wind_desc : string),
    in_comfort_band b (number_Q (obs_feelslike o))
    /\ summary_body py wd
       = Return (summary_template
                   (if obs_is_day o =? 1 then "day" else "night")
                   (obs_city o)
                   (str_lower py (comfort_phrase b))
                   (str_lower py (obs_condition o))
                   temp_text feels_text humidity_text
                   wind_desc wind_text
                   (chill_for o) (advice_for o)).
Proof.
  intros (Hname & Htemp & Hfeels & Hhum & Hwind & Hcond & Hday) Ptemp Pfeels Phum Pwind.
  apply at_path_cons in Hname as (loc & Hloc & Hname).
  apply at_path_cons in Hname as (name & Hname & [= ->]).
  apply at_path_cons in Htemp as (cur & Hcur & Htemp).
  apply at_path_cons in Htemp as (temp & Htemp & [= ->]).
  apply at_path_cons in Hfeels as (cur' & Hcur' & Hfeels).
  rewrite Hcur in Hcur'. injection Hcur' as <-.
  apply at_path_cons in Hfeels as (feels & Hfeels & [= ->]).
  apply at_path_cons in Hhum as (cur' & Hcur' & Hhum).
  rewrite Hcur in Hcur'. injection Hcur' as <-.
  apply at_path_cons in Hhum as (hum & Hhum & [= ->]).
  apply at_path_cons in Hwind as (cur' & Hcur' & Hwind).
  rewrite Hcur in Hcur'. injection Hcur' as <-.
  apply at_path_cons in Hwind as (wind & Hwind & [= ->]).
  apply at_path_cons in Hcond as (cur' & Hcur' & Hcond).
  rewrite Hcur in Hcur'. injection Hcur' as <-.
  apply at_path_cons in Hcond as (cond & Hcond & Htext).
  apply at_path_cons in Htext as (text & Htext & [= ->]).
  apply at_path_cons in Hday as (cur' & Hcur' & Hday).
  rewrite Hcur in Hcur'. injection Hcur' as <-.
  apply at_path_cons in Hday as (day & Hday & [= ->]).
  destruct (comfort_band_total (number_Q (obs_feelslike o))) as [b Hb].
  pose proof (number_val_number (obs_feelslike o)) as Nfeels.
  pose proof (number_val_number (obs_temperature o)) as Ntemp.
  pose proof (number_val_number (obs_wind o)) as Nwind.
  destruct (wind_description_returns _ _ Nwind) as [wind_desc Hwd].
  exists b, wind_desc. split; [exact Hb |].
  unfold summary_body.
  rewrite Hcur; cbn [mbind outcome_bind].
  rewrite Htemp, Hfeels, Hcond; cbn [mbind outcome_bind].
  rewrite Htext, Hhum, Hwind, Hday; cbn [mbind outcome_bind].
  rewrite (temp_description_of_band _ _ b Nfeels Hb); cbn [mbind outcome_bind].
  rewrite first_piece_of_comfort_text, Hwd, Hloc; cbn [mbind outcome_bind].
  rewrite Hname; cbn [mbind outcome_bind].
  rewrite py_str_str; cbn [mbind outcome_bind method_lower].
  rewrite Ptemp, Pfeels, Phum, Pwind; cbn [mbind outcome_bind].
  rewrite (py_lt_numbers _ _ _ _ Nfeels Ntemp), (py_lt_number _ _ Nfeels).
  rewrite (py_gt_number _ _ Ntemp); cbn [mbind outcome_bind].
  unfold _get_day_night_description. rewrite py_eq_int_int.
  unfold advice_for, chill_for.
  change (inject_Z 10) with 10%Q. change (inject_Z 25) with 25%Q.
  destruct (Qlt_bool (number_Q (obs_feelslike o)) 10); cbn [mbind outcome_bind];
    reflexivity.
Qed.

Lemma observation_texts (py : builtins) (o : observation) :
  observation_printable py o = true ->
  exists temp_text feels_text humidity_text wind_text : string,
    py_str py (number_val (obs_temperature o)) = Return temp_text
    /\ py_str py (number_val (obs_feelslike o)) = Return feels_text
    /\ py_str py (VInt (obs_humidity o)) = Return humidity_text
    /\ py_str py (number_val (obs_wind o)) = Return wind_text.
Proof.
  unfold observation_printable. rewrite !andb_true_iff.
  intros [[[Ht Hf] Hh] Hw].
  apply printable_text in Ht as [temp_text Ht].
  apply printable_text in Hf as [feels_text Hf].
  apply printable_text in Hh as [humidity_text Hh].
  apply printable_text in Hw as [wind_text Hw].
  now exists temp_text, feels_text, humidity_text, wind_text.
Qed.

Lemma observes_london : observes Sample.london Sample.london_observation.
Proof. repeat split. Qed.

(** C4: on every well-formed observation (the fields where the API document
    puts them, with the types of the data model, and numbers the interpreter
    can print) the summary is a non-empty string that contains the city
    name, the time-of-day term ("day" or "night"), the leading comfort-level
    phrase of the feels-like band, in the lower case the template puts it
    in, and the temperature and feels-like values as Python prints them. *)
Theorem weather_summary_contents (py : builtins) (wd : pyval) (o : observation) :
  observes wd o ->
  observation_printable py o = true ->
  exists (s : string) (b : comfort_band) (temp_text feels_text : string),
    get_weather_summary py wd = Return s
    /\ s <> EmptyString
    /\ Text.contains (obs_city o) s = true
    /\ Text.contains (if obs_is_day o =? 1 then "day" else "night") s = true
    /\ in_comfort_band b (number_Q (obs_feelslike o))
    /\ _get_temp_description (number_val (obs_feelslike o)) = Return (comfort_text b)
    /\ first_item (Text.split " – " (comfort_text b)) = Return (comfort_phrase b)
    /\ Text.contains (str_lower py (comfort_phrase b)) s = true
    /\ py_str py (number_val (obs_temperature o)) = Return temp_text
    /\ Text.contains temp_text s = true
    /\ py_str py (number_val (obs_feelslike o)) = Return feels_text
    /\ Text.contains feels_text s = true.
Proof.
  intros Hobs Hprint.
  destruct (observation_texts py o Hprint)
    as (temp_text & feels_text & humidity_text & wind_text & Pt & Pf & Ph & Pw).
  destruct (summary_body_observed py wd o _ _ _ _ Hobs Pt Pf Ph Pw)
    as (b & wind_desc & Hb & Hs).
  eexists. exists b, temp_text, feels_text.
  unfold get_weather_summary. rewrite Hs. cbn [try_except].
  split; [reflexivity |].
  split; [apply template_nonempty |].
  split; [apply template_location |].
  split; [apply template_time_of_day |].
  split; [exact Hb |].
  split; [exact (temp_description_of_band _ _ b (number_val_number _) Hb) |].
  split; [apply first_piece_of_comfort_text |].
  split; [apply template_comfort |].
  split; [exact Pt |].
  split; [apply template_temp |].
  split; [exact Pf | apply template_feels_like].
Qed.

Lemma weather_summary_contents_london :
  exists (s : string) (b : comfort_band) (temp_text feels_text : string),
    get_weather_summary Sample.cpython Sample.london = Return s
    /\ s <> EmptyString
    /\ Text.contains "London" s = true
    /\ Text.contains "day" s = true
    /\ in_comfort_band b 5
    /\ _get_temp_description (VInt 5) = Return (comfort_text b)
    /\ first_item (Text.split " – " (comfort_text b)) = Return (comfort_phrase b)
    /\ Text.contains (Text.lower_ascii (comfort_phrase b)) s = true
    /\ py_str Sample.cpython (VInt 7) = Return temp_text
    /\ Text.contains temp_text s = true
    /\ py_str Sample.cpython (VInt 5) = Return feels_text
    /\ Text.contains feels_text s = true.
Proof.
  exact (weather_summary_contents Sample.cpython Sample.london Sample.london_observation
           observes_london eq_refl).
Defined.

(** The example of the specification: London at 5 degrees. *)
Example weather_summary_london :
  exists s : string,
    get_weather_summary Sample.cpython Sample.london = Return s
    /\ Text.contains "London" s = true
    /\ Text.contains "5°C" s = true
    /\ Text.contains "cold" s = true
    /\ Text.contains "gentle breeze" s = true.
Proof. eexists. repeat split; reflexivity. Qed.

Lemma ordinary_bind {A B} (m : outcome A) (k : A -> outcome B) :
  ordinary m -> (forall a, ordinary (k a)) -> ordinary (m ≫= k).
Proof. destruct m; simpl; auto. Qed.

Lemma ordinary_Return {A} (a : A) : ordinary (Return a).
Proof. exact I. Qed.

Lemma ordinary_getitem (v : pyval) (key : string) : ordinary (getitem v key).
Proof. destruct v; simpl; try reflexivity. now destruct (d !! key). Qed.

Lemma ordinary_py_lt (a b : pyval) : ordinary (py_lt a b).
Proof. unfold py_lt. now destruct (as_number a), (as_number b). Qed.

Lemma ordinary_py_le (a b : pyval) : ordinary (py_le a b).
Proof. unfold py_le. now destruct (as_number a), (as_number b). Qed.

Lemma ordinary_py_gt (a b : pyval) : ordinary (py_gt a b).
Proof. unfold py_gt. now destruct (as_number a), (as_number b). Qed.

Lemma ordinary_py_ge (a b : pyval) : ordinary (py_ge a b).
Proof. unfold py_ge. now destruct (as_number a), (as_number b). Qed.

Lemma ordinary_if {A} (c : bool) (m n : outcome A) :
  ordinary m -> ordinary n -> ordinary (if c then m else n).
Proof. now destruct c. Qed.

Lemma ordinary_first_item (l : list string) : ordinary (first_item l).
Proof. now destruct l. Qed.

Lemma ordinary_method_lower (py : builtins) (v : pyval) : ordinary (method_lower py v).
Proof. now destruct v. Qed.

Lemma ordinary_py_str (py : builtins) (v : pyval) : ordinary (py_str py v).
Proof.
  destruct v as [| [] | z | [] | | |]; try exact I.
  - unfold py_str, int_str. now destruct (_ && _).
  - unfold py_str. now destruct (container_repr py _) as [text | []].
  - unfold py_str. now destruct (container_repr py _) as [text | []].
Qed.

Ltac ordinary_steps :=
  repeat first
    [ apply ordinary_Return
    | apply ordinary_getitem
    | apply ordinary_py_lt
    | apply ordinary_py_le
    | apply ordinary_py_gt
    | apply ordinary_py_ge
    | apply ordinary_first_item
    | apply ordinary_method_lower
    | apply ordinary_py_str
    | apply ordinary_if
    | apply ordinary_bind; [| intros ?]
    | progress cbv zeta ].

Lemma ordinary_temp_description (x : pyval) : ordinary (_get_temp_description x).
Proof. unfold _get_temp_description, chained_le_lt. ordinary_steps. Qed.

Lemma ordinary_wind_description (x : pyval) : ordinary (_get_wind_description x).
Proof. unfold _get_wind_description. ordinary_steps. Qed.

Lemma ordinary_aqi_description (x : pyval) : ordinary (_get_aqi_description x).
Proof.
  unfold _get_aqi_description.
  destruct x; try reflexivity; now destruct (as_int_key _).
Qed.

Lemma ordinary_summary_body (py : builtins) (wd : pyval) : ordinary (summary_body py wd).
Proof.
  unfold summary_body.
  repeat first
    [ apply ordinary_temp_description
    | apply ordinary_wind_description
    | progress ordinary_steps ].
Qed.

Lemma py_lt_Return_number (a b : pyval) (c : bool) :
  py_lt a b = Return c -> is_number a = true /\ is_number b = true.
Proof.
  unfold py_lt, is_number. destruct (as_number a), (as_number b); now intros.
Qed.

Lemma temp_description_Return_number (x : pyval) (d : string) :
  _get_temp_description x = Return d -> is_number x = true.
Proof.
  unfold _get_temp_description. intros H.
  apply bind_Return_inv in H as (c & H & _).
  now apply py_lt_Return_number in H.
Qed.

Lemma wind_description_Return_number (x : pyval) (d : string) :
  _get_wind_description x = Return d -> is_number x = true.
Proof.
  unfold _get_wind_description. intros H.
  apply bind_Return_inv in H as (c & H & _).
  now apply py_lt_Return_number in H.
Qed.

Lemma method_lower_Return_str (py : builtins) (v : pyval) (s : string) :
  method_lower py v = Return s -> is_str v = true.
Proof. now destruct v. Qed.

Lemma has_two (wd c x : pyval) (k1 k2 : string) (test : pyval -> bool) :
  getitem wd k1 = Return c -> getitem c k2 = Return x -> test x = true ->
  has wd [k1; k2] test = true.
Proof.
  intros H1 H2 Ht. unfold has.
  now rewrite (proj2 (at_path_cons wd k1 [k2] x)
                 (ex_intro _ c (conj H1 (proj2 (at_path_cons c k2 [] x)
                                                  (ex_intro _ x (conj H2 eq_refl)))))).
Qed.

(** The block returns only on a document the template can process. *)
Lemma summary_body_Return_fills (py : builtins) (wd : pyval) (s : string) :
  summary_body py wd = Return s -> summary_fills py wd = true.
Proof.
  unfold summary_body. intros H.
  apply bind_Return_inv in H as (current & Hcur & H).
  apply bind_Return_inv in H as (temp & Htemp & H).
  apply bind_Return_inv in H as (feels & Hfeels & H).
  apply bind_Return_inv in H as (condition & Hcond & H).
  apply bind_Return_inv in Hcond as (cond & Hcond & Htext).
  apply bind_Return_inv in H as (humidity & Hhum & H).
  apply bind_Return_inv in H as (wind & Hwind & H).
  apply bind_Return_inv in H as (is_day & Hday & H).
  apply bind_Return_inv in H as (temp_desc & Hdesc & H).
  apply bind_Return_inv in Hdesc as (d & Hdesc & _).
  apply bind_Return_inv in H as (wind_desc & Hwd & H).
  apply bind_Return_inv in H as (name & Hname & H).
  apply bind_Return_inv in Hname as (loc & Hloc & Hname).
  apply bind_Return_inv in H as (name_text & Pname & H). cbv zeta in H.
  apply bind_Return_inv in H as (lowered & Hlow & H).
  apply bind_Return_inv in H as (temp_text & Ptemp & H).
  apply bind_Return_inv in H as (feels_text & Pfeels & H).
  apply bind_Return_inv in H as (humidity_text & Phum & H).
  apply bind_Return_inv in H as (wind_text & Pwind & H).
  apply bind_Return_inv in H as (colder & Hcolder & _).
  apply temp_description_Return_number in Hdesc.
  apply wind_description_Return_number in Hwd.
  apply method_lower_Return_str in Hlow.
  apply py_lt_Return_number in Hcolder as [_ Htnum].
  apply text_printable in Pname, Ptemp, Pfeels, Phum, Pwind.
  unfold summary_fills, summary_ready, summary_printable.
  rewrite (has_two wd current temp _ _ _ Hcur Htemp Htnum).
  rewrite (has_two wd current feels _ _ _ Hcur Hfeels Hdesc).
  rewrite (has_two wd current humidity _ _ (fun _ => true) Hcur Hhum eq_refl).
  rewrite (has_two wd current wind _ _ _ Hcur Hwind Hwd).
  rewrite (has_two wd current is_day _ _ (fun _ => true) Hcur Hday eq_refl).
  rewrite (has_two wd loc name _ _ (fun _ => true) Hloc Hname eq_refl).
  rewrite (has_two wd loc name _ _ _ Hloc Hname Pname).
  rewrite (has_two wd current temp _ _ _ Hcur Htemp Ptemp).
  rewrite (has_two wd current feels _ _ _ Hcur Hfeels Pfeels).
  rewrite (has_two wd current humidity _ _ _ Hcur Hhum Phum).
  rewrite (has_two wd current wind _ _ _ Hcur Hwind Pwind).
  assert (has wd ["current"; "condition"; "text"] is_str = true) as ->; [| reflexivity].
  unfold has.
  rewrite (proj2 (at_path_cons wd "current" ["condition"; "text"] condition)); [exact Hlow |].
  exists current. split; [exact Hcur |].
  apply at_path_cons. exists cond. split; [exact Hcond |].
  apply at_path_cons. exists condition. now split.
Qed.

(** C5 (as the code has it): whenever a field the template reads is
    missing, or has a type the template cannot process, or holds a value
    that cannot be printed, the summary is the fixed prefix followed by the
    text of the exception the block raised; nothing is raised to the
    caller. *)
Theorem weather_summary_fallback (py : builtins) (wd : pyval) :
  summary_fills py wd = false ->
  exists e : exc,
    summary_body py wd = Raise e
    /\ get_weather_summary py wd
       = Return ("Unable to generate weather summary: " ++ exc_str e).
Proof.
  intros Hnot.
  pose proof (ordinary_summary_body py wd) as Hord.
  unfold get_weather_summary.
  destruct (summary_body py wd) as [s | e] eqn:Hbody.
  - apply summary_body_Return_fills in Hbody. congruence.
  - exists e. split; [reflexivity |].
    simpl in Hord. unfold try_except. now rewrite Hord.
Qed.

Lemma weather_summary_fallback_no_current :
  exists e : exc,
    summary_body Sample.cpython Sample.no_current = Raise e
    /\ get_weather_summary Sample.cpython Sample.no_current
       = Return ("Unable to generate weather summary: " ++ exc_str e).
Proof. exact (weather_summary_fallback Sample.cpython Sample.no_current eq_refl). Defined.

(** C5 as worded fails on both counts: two documents with a field missing
    get two different messages, and a document with a malformed humidity gets
    no fallback at all. *)
Lemma weather_summary_fallback_varies :
  summary_ready Sample.no_current = false
  /\ summary_ready Sample.no_location = false
  /\ get_weather_summary Sample.cpython Sample.no_current
     = Return "Unable to generate weather summary: 'current'"
  /\ get_weather_summary Sample.cpython Sample.no_location
     = Return "Unable to generate weather summary: 'location'"
  /\ at_path Sample.humidity_as_text ["current"; "humidity"] = Some (VStr "high")
  /\ exists s : string,
       get_weather_summary Sample.cpython Sample.humidity_as_text = Return s
       /\ Text.starts_with "During the day in London" s = true
       /\ Text.contains "Humidity levels are at high%" s = true.
Proof.
  repeat split; try reflexivity.
  eexists. repeat split; reflexivity.
Qed.

(** A temperature of 4301 digits cannot be printed under the default limit
    of 4300: the summary is the failure message. *)
Example weather_summary_digit_limit :
  get_weather_summary Sample.cpython (Sample.with_reading "temp_c" (VInt (10 ^ 4300)))
  = Return "Unable to generate weather summary: Exceeds the limit (4300 digits) for integer string conversion; use sys.set_int_max_str_digits() to increase the limit".
Proof. vm_compute. reflexivity. Qed.

(** The summary never raises, whatever it is given. *)
Lemma weather_summary_total (py : builtins) (wd : pyval) :
  exists s : string, get_weather_summary py wd = Return s.
Proof.
  pose proof (ordinary_summary_body py wd) as Hord.
  unfold get_weather_summary, try_except.
  destruct (summary_body py wd) as [s | e]; [now exists s |].
  simpl in Hord. rewrite Hord. now eexists.
Qed.

Lemma yields_bind {A B} (P : B -> Prop) (m : outcome A) (k : A -> outcome B) :
  yields anything m -> (forall a, yields P (k a)) -> yields P (m ≫= k).
Proof. destruct m; simpl; [auto | tauto]. Qed.

Lemma yields_if {A} (P : A -> Prop) (c : bool) (m n : outcome A) :
  yields P m -> yields P n -> yields P (if c then m else n).
Proof. now destruct c. Qed.

Lemma yields_py_lt (a b : pyval) :
  is_number a = true -> is_number b = true -> yields anything (py_lt a b).
Proof. unfold is_number, py_lt. now destruct (as_number a), (as_number b). Qed.

Lemma yields_py_le (a b : pyval) :
  is_number a = true -> is_number b = true -> yields anything (py_le a b).
Proof. unfold is_number, py_le. now destruct (as_number a), (as_number b). Qed.

Lemma yields_py_gt (a b : pyval) :
  is_number a = true -> is_number b = true -> yields anything (py_gt a b).
Proof. unfold is_number, py_gt. now destruct (as_number a), (as_number b). Qed.

Lemma yields_py_ge (a b : pyval) :
  is_number a = true -> is_number b = true -> yields anything (py_ge a b).
Proof. unfold is_number, py_ge. now destruct (as_number a), (as_number b). Qed.

Ltac yields_steps :=
  repeat first
    [ exact I
    | apply yields_py_lt; [assumption || reflexivity | assumption || reflexivity]
    | apply yields_py_le; [assumption || reflexivity | assumption || reflexivity]
    | apply yields_py_gt; [assumption || reflexivity | assumption || reflexivity]
    | apply yields_py_ge; [assumption || reflexivity | assumption || reflexivity]
    | apply yields_if
    | apply yields_bind; [| intros ?] ].

Lemma yields_temp_description (x : pyval) :
  is_number x = true -> yields anything (_get_temp_description x).
Proof. intros Hx. unfold _get_temp_description, chained_le_lt. yields_steps. Qed.

Lemma yields_wind_description (x : pyval) :
  is_number x = true -> yields anything (_get_wind_description x).
Proof. intros Hx. unfold _get_wind_description. yields_steps. Qed.

Lemma split_from_nonempty (sep : string) (s : string) (skip : nat) (cur : string) :
  Text.split_from sep skip cur s <> [].
Proof.
  revert skip cur. induction s as [| c s IH]; intros skip cur; [discriminate |].
  cbn [Text.split_from]. destruct skip; [| apply IH].
  destruct (Text.starts_with sep (String c s)); [discriminate | apply IH].
Qed.

Lemma yields_first_piece (sep s : string) :
  yields anything (first_item (Text.split sep s)).
Proof.
  unfold Text.split. pose proof (split_from_nonempty sep s 0 EmptyString) as H.
  now destruct (Text.split_from sep 0 EmptyString s).
Qed.

Lemma has_two_inv (wd : pyval) (k1 k2 : string) (test : pyval -> bool) :
  has wd [k1; k2] test = true ->
  exists c x, getitem wd k1 = Return c /\ getitem c k2 = Return x /\ test x = true.
Proof.
  unfold has. destruct (at_path wd [k1; k2]) as [x |] eqn:E; [| discriminate].
  intros Ht. apply at_path_cons in E as (c & Hc & E).
  apply at_path_cons in E as (x' & Hx & [= ->]).
  now exists c, x.
Qed.

(** The fallback is given exactly when the template cannot be filled in:
    on every other document the summary is the filled-in template. *)
Lemma weather_summary_ready (py : builtins) (wd : pyval) :
  summary_fills py wd = true ->
  yields (fun s => Text.starts_with "During the " s = true) (get_weather_summary py wd).
Proof.
  unfold summary_fills, summary_ready, summary_printable. rewrite !andb_true_iff.
  intros [[[[[[[Htemp Hfeels] Hcond] Hhum] Hwind] Hday] Hname]
          [[[[Pname Ptemp] Pfeels] Phum] Pwind]].
  apply has_two_inv in Htemp as (cur & temp & Hcur & Htemp & Ntemp).
  apply has_two_inv in Hfeels as (cur' & feels & Hcur' & Hfeels & Nfeels).
  rewrite Hcur in Hcur'. injection Hcur' as <-.
  apply has_two_inv in Hhum as (cur' & hum & Hcur' & Hhum & _).
  rewrite Hcur in Hcur'. injection Hcur' as <-.
  apply has_two_inv in Hwind as (cur' & wind & Hcur' & Hwind & Nwind).
  rewrite Hcur in Hcur'. injection Hcur' as <-.
  apply has_two_inv in Hday as (cur' & day & Hcur' & Hday & _).
  rewrite Hcur in Hcur'. injection Hcur' as <-.
  apply has_two_inv in Hname as (loc & name & Hloc & Hname & _).
  apply has_two_inv in Pname as (loc' & name' & Hloc' & Hname' & Pname).
  rewrite Hloc in Hloc'. injection Hloc' as <-.
  rewrite Hname in Hname'. injection Hname' as <-.
  apply has_two_inv in Ptemp as (cur' & temp' & Hcur' & Htemp' & Ptemp).
  rewrite Hcur in Hcur'. injection Hcur' as <-.
  rewrite Htemp in Htemp'. injection Htemp' as <-.
  apply has_two_inv in Pfeels as (cur' & feels' & Hcur' & Hfeels' & Pfeels).
  rewrite Hcur in Hcur'. injection Hcur' as <-.
  rewrite Hfeels in Hfeels'. injection Hfeels' as <-.
  apply has_two_inv in Phum as (cur' & hum' & Hcur' & Hhum' & Phum).
  rewrite Hcur in Hcur'. injection Hcur' as <-.
  rewrite Hhum in Hhum'. injection Hhum' as <-.
  apply has_two_inv in Pwind as (cur' & wind' & Hcur' & Hwind' & Pwind).
  rewrite Hcur in Hcur'. injection Hcur' as <-.
  rewrite Hwind in Hwind'. injection Hwind' as <-.
  apply printable_text in Pname as [name_text Pname].
  apply printable_text in Ptemp as [temp_text Ptemp].
  apply printable_text in Pfeels as [feels_text Pfeels].
  apply printable_text in Phum as [humidity_text Phum].
  apply printable_text in Pwind as [wind_text Pwind].
  unfold has in Hcond.
  destruct (at_path wd ["current"; "condition"; "text"]) as [text |] eqn:E; [| discriminate].
  apply at_path_cons in E as (cur' & Hcur' & E).
  rewrite Hcur in Hcur'. injection Hcur' as <-.
  apply at_path_cons in E as (cond & Hcondition & E).
  apply at_path_cons in E as (text' & Htext & [= ->]).
  destruct text; try discriminate Hcond.
  assert (yields (fun s => Text.starts_with "During the " s = true) (summary_body py wd))
    as Hbody.
  { unfold summary_body.
    rewrite Hcur; cbn [mbind outcome_bind].
    rewrite Htemp, Hfeels, Hcondition; cbn [mbind outcome_bind].
    rewrite Htext, Hhum, Hwind, Hday; cbn [mbind outcome_bind].
    apply yields_bind.
    { apply yields_bind; [now apply yields_temp_description |].
      intros d. apply yields_first_piece. }
    intros temp_desc.
    apply yields_bind; [now apply yields_wind_description |]. intros wind_desc.
    rewrite Hloc; cbn [mbind outcome_bind]. rewrite Hname; cbn [mbind outcome_bind].
    rewrite Pname; cbn [mbind outcome_bind method_lower].
    rewrite Ptemp, Pfeels, Phum, Pwind; cbn [mbind outcome_bind].
    apply yields_bind; [now apply yields_py_lt |]. intros colder.
    apply yields_bind; [now apply yields_py_lt |]. intros chilly.
    apply yields_bind.
    { apply yields_if; [exact I |]. apply yields_bind; [now apply yields_py_gt |].
      intros warm. exact I. }
    intros advice. apply template_opening. }
  unfold get_weather_summary.
  destruct (summary_body py wd); [exact Hbody | contradiction].
Qed.

(** ** The insight generator *)

Lemma every_exception_is_a_BaseException (e : exc) : isinstance e BaseException = true.
Proof. destruct e as [c msg]. now destruct c. Qed.

Lemma io_try_pure_bind {A B} (o : outcome A) (k : A -> io B)
      (clauses : list (exc_class * (exc -> io B))) :
  io_try (pure o ≫= k) clauses
  = match o with
    | Return a => io_try (k a) clauses
    | Raise e => io_try (Raise e, []) clauses
    end.
Proof.
  destruct o as [a | e]; [| reflexivity].
  unfold pure. cbn [mbind io_bind]. now destruct (k a) as [r t].
Qed.

Lemma ordinary_analysis_prompt (py : builtins)
      (wd temp_c condition humidity wind_kph aqi feels_like heat_index is_day : pyval) :
  ordinary (analysis_prompt py wd temp_c condition humidity wind_kph aqi feels_like
              heat_index is_day).
Proof.
  unfold analysis_prompt.
  repeat first
    [ apply ordinary_temp_description
    | apply ordinary_wind_description
    | apply ordinary_aqi_description
    | progress ordinary_steps ].
Qed.

Section InsightCases.

Variables (py : builtins) (w : world).

(** A property of the outcome that holds of the fallback object holds of
    the call as soon as it holds of what the chat request comes to. *)
Variable P : outcome pyobj -> Prop.
Hypothesis P_fallback : P (Return (Plain fallback_insights)).

Lemma insight_prelude {A} (o : outcome A) (k : A -> io pyobj) :
  ordinary o ->
  (forall a, P (fst (io_try (k a) [(Exception, report_and_fall_back)]))) ->
  P (fst (io_try (pure o ≫= k) [(Exception, report_and_fall_back)])).
Proof.
  intros Ho Hk. rewrite io_try_pure_bind. destruct o as [a | e]; [apply Hk |].
  simpl in Ho. unfold io_try. cbn [find_clause]. now rewrite Ho.
Qed.

Lemma analyze_weather_by_request (wd : pyval) :
  (forall prompt,
      P (fst (io_try (request_insights py w wd prompt)
                [(Exception, report_and_fall_back)]))) ->
  P (fst (analyze_weather py w wd)).
Proof.
  intros Hask. unfold analyze_weather.
  do 9 (apply insight_prelude; [ordinary_steps | intros ?]).
  apply insight_prelude; [apply ordinary_analysis_prompt | intros prompt].
  apply Hask.
Qed.

End InsightCases.

(** The chat request, by what the client and [eval] do. *)
Lemma request_insights_outcome (py : builtins) (w : world) (wd : pyval) (prompt : string) :
  fst (io_try (request_insights py w wd prompt) [(Exception, report_and_fall_back)])
  = match chat_completions_create w "gpt-3.5-turbo" system_message prompt with
    | Raise e => if isinstance e Exception then Return (Plain fallback_insights) else Raise e
    | Return response =>
        match reply_text py response with
        | Raise _ => Return (Plain fallback_insights)
        | Return text =>
            match run_outcome (builtin_eval py (scope_of w wd prompt response) text) with
            | Raise _ => Return (Plain fallback_insights)
            | Return v => Return v
            end
        end
    end.
Proof.
  unfold request_insights, scope_of.
  destruct (chat_completions_create w "gpt-3.5-turbo" system_message prompt) as [response | e].
  - cbn [mbind io_bind].
    destruct (reply_text py response) as [text | e].
    + cbn [pure mbind io_bind]. unfold foreign.
      destruct (run_outcome (builtin_eval py _ text)) as [v | e]; [reflexivity |].
      unfold io_try at 2. cbn [find_clause].
      now rewrite every_exception_is_a_BaseException.
    + cbn [pure mbind io_bind]. unfold io_try at 2. cbn [find_clause].
      now rewrite every_exception_is_a_BaseException.
  - cbn [mbind io_bind]. unfold io_try. cbn [find_clause].
    now destruct (isinstance e Exception).
Qed.

(** When the chat call fails with an exception deriving from [Exception], as
    every error of the client does, the result is the fallback object. *)
Lemma analyze_weather_client_fails (py : builtins) (w : world) (wd : pyval) :
  (forall model system user,
      exists e, chat_completions_create w model system user = Raise e
                /\ isinstance e Exception = true) ->
  fst (analyze_weather py w wd) = Return fallback_insights.
Proof.
  intros Hfail.
  apply (analyze_weather_by_request py w
           (fun r => r = Return (Plain fallback_insights)) eq_refl).
  intros prompt. rewrite request_insights_outcome.
  destruct (Hfail "gpt-3.5-turbo" system_message prompt) as (e & -> & ->). reflexivity.
Qed.

(** When [eval] raises on whatever the model replied, the result is the
    fallback object. *)
Lemma analyze_weather_eval_raises (py : builtins) (w : world) (wd : pyval) :
  (forall scope text, exists e, run_outcome (builtin_eval py scope text) = Raise e) ->
  (forall model system user,
      exists response, chat_completions_create w model system user = Return response) ->
  fst (analyze_weather py w wd) = Return fallback_insights.
Proof.
  intros Heval Hreply.
  apply (analyze_weather_by_request py w
           (fun r => r = Return (Plain fallback_insights)) eq_refl).
  intros prompt. rewrite request_insights_outcome.
  destruct (Hreply "gpt-3.5-turbo" system_message prompt) as (response & ->).
  destruct (reply_text py response) as [text | e]; [| reflexivity].
  now destruct (Heval (scope_of w wd prompt response) text) as (e & ->).
Qed.

(** What a call of [analyze_weather] can come to: the fallback object, the
    value [eval] made of a reply, or an exception of the chat client that
    does not derive from [Exception]. *)
Lemma analyze_weather_cases (py : builtins) (w : world) (wd : pyval) :
  let r := fst (analyze_weather py w wd) in
  r = Return fallback_insights
  \/ (exists scope text v,
        run_outcome (builtin_eval py scope text) = Return v /\ r = Return v)
  \/ (exists model system user e,
        chat_completions_create w model system user = Raise e
        /\ isinstance e Exception = false
        /\ r = Raise e).
Proof.
  apply (analyze_weather_by_request py w
           (fun r =>
              r = Return (Plain fallback_insights)
              \/ (exists scope text v,
                    run_outcome (builtin_eval py scope text) = Return v /\ r = Return v)
              \/ (exists model system user e,
                    chat_completions_create w model system user = Raise e
                    /\ isinstance e Exception = false /\ r = Raise e)));
    [now left |].
  intros prompt. rewrite request_insights_outcome.
  destruct (chat_completions_create w "gpt-3.5-turbo" system_message prompt)
    as [response | e] eqn:Hcreate.
  - destruct (reply_text py response) as [text | e]; [| now left].
    destruct (run_outcome (builtin_eval py (scope_of w wd prompt response) text))
      as [v | e] eqn:Heval; [| now left].
    right; left. now exists (scope_of w wd prompt response), text, v.
  - destruct (isinstance e Exception) eqn:He; [now left |].
    right; right. now exists "gpt-3.5-turbo", system_message, prompt, e.
Qed.

(** C1 at the failing input: the model replies with the text None, which is
    not JSON; [eval] makes the Python value [None] of it, and that value, not
    the four-field fallback object, is what the caller gets. *)
Theorem analyze_weather_returns_evaluated_reply :
  fst (analyze_weather Sample.cpython (Sample.replying "None") Sample.london) = Return VNone
  /\ Return VNone <> Return fallback_insights
  /\ fst (analyze_weather Sample.cpython (Sample.replying "Sunny spells") Sample.london)
     = Return fallback_insights.
Proof.
  split; [reflexivity |]. split; [discriminate | reflexivity].
Qed.

(** ** The weather fetcher *)

(** C10: for the empty city string the fetcher returns [None] at once: no
    request is issued and no error is reported. *)
Theorem fetch_empty_city (w : world) (env : environ) (aqi : string) :
  get_current_weather w env EmptyString aqi = (Return VNone, []).
Proof.
  unfold get_current_weather.
  (* [not city] holds of the empty string, so the guard returns *)
  change (truthy (VStr EmptyString)) with false.
  reflexivity.
Qed.

Lemma nonempty_truthy (s : string) : s <> EmptyString -> truthy (VStr s) = true.
Proof. destruct s; [congruence | reflexivity]. Qed.




(** A client that cannot connect: a network error is reported. *)
Example fetch_offline :
  get_current_weather Sample.offline Sample.with_keys "London" "yes"
  = (Return VNone,
     [HttpGet (request_url Sample.with_keys "London" "yes");
      StError network_error_message]).
Proof. reflexivity. Qed.

(** ** Configuration *)

Lemma filter_bind {A B} (f : event -> bool) (m : io A) (k : A -> io B) :
  List.filter f (snd (m ≫= k))
  = (List.filter f (snd m)
     ++ match fst m with
        | Return a => List.filter f (snd (k a))
        | Raise _ => []
        end)%list.
Proof.
  destruct m as [[a | e] t]; cbn [mbind io_bind fst snd].
  - destruct (k a) as [r t']. cbn [snd]. apply List.filter_app.
  - now rewrite List.app_nil_r.
Qed.

Lemma fst_bind {A B} (m : io A) (k : A -> io B) :
  fst (m ≫= k)
  = match fst m with
    | Return a => fst (k a)
    | Raise e => Raise e
    end.
Proof.
  destruct m as [[a | e] t]; cbn [mbind io_bind fst]; [| reflexivity].
  now destruct (k a).
Qed.

Lemma filter_io_try {A} (f : event -> bool) (body : io A)
      (clauses : list (exc_class * (exc -> io A))) :
  (forall e h, find_clause e clauses = Some h -> List.filter f (snd (h e)) = []) ->
  List.filter f (snd (io_try body clauses)) = List.filter f (snd body).
Proof.
  intros Hh. destruct body as [[a | e] t]; cbn [io_try snd]; [reflexivity |].
  destruct (find_clause e clauses) as [h |] eqn:E; [| reflexivity].
  specialize (Hh e h E). destruct (h e) as [r t']. cbn [snd] in *.
  now rewrite List.filter_app, Hh, List.app_nil_r.
Qed.

Lemma silent_bind {A B} (m : io A) (k : A -> io B) :
  silent m -> (forall a, silent (k a)) -> silent (m ≫= k).
Proof.
  intros [Hl Hi] Hk. unfold silent, lookups, insight_requests.
  rewrite !filter_bind. unfold lookups, insight_requests in Hl, Hi. rewrite Hl, Hi.
  destruct (fst m) as [a | e]; [apply Hk | now split].
Qed.

Lemma silent_pure {A} (o : outcome A) : silent (pure o).
Proof. now split. Qed.

Lemma silent_mret {A} (a : A) : silent (mret a : io A).
Proof. now split. Qed.

Lemma silent_emit (ev : event) :
  is_lookup ev = false -> is_insight_request ev = false -> silent (emit ev).
Proof.
  intros Hl Hi. unfold silent, lookups, insight_requests, emit. cbn [snd List.filter].
  now rewrite Hl, Hi.
Qed.

Lemma silent_if {A} (c : bool) (m n : io A) :
  silent m -> silent n -> silent (if c then m else n).
Proof. now destruct c. Qed.

Lemma silent_listen {A} (m : io A) : silent m -> silent (listen m).
Proof. now destruct m as [[a | e] t]. Qed.

Ltac silent_steps :=
  repeat first
    [ apply silent_pure
    | apply silent_mret
    | apply silent_emit; reflexivity
    | apply silent_listen
    | apply silent_if
    | apply silent_bind; [| intros ?]
    | progress cbv zeta ].

Lemma display_without_ai_silent (py : builtins) (w : world) (data : pyval) :
  silent (display_weather_info py w false data).
Proof. unfold display_weather_info. silent_steps. Qed.

Lemma fetch_trace (w : world) (env : environ) (city aqi : string) :
  city <> EmptyString ->
  lookups (snd (get_current_weather w env city aqi)) = [HttpGet (request_url env city aqi)]
  /\ insight_requests (snd (get_current_weather w env city aqi)) = [].
Proof.
  intros Hcity. unfold get_current_weather.
  rewrite (nonempty_truthy city Hcity). cbn [negb]. cbv zeta.
  destruct (requests_get w (request_url env city aqi)) as [r | e].
  - cbn [mbind io_bind]. unfold raise_for_status.
    destruct ((400 <=? status_code r) && (status_code r <? 500));
      [| destruct ((500 <=? status_code r) && (status_code r <? 600))];
      cbn [pure mbind io_bind];
      try (destruct (status_code r =? 400); now split).
    destruct (json r) as [v | e]; [now split |].
    unfold io_try. cbn [find_clause].
    destruct (isinstance e HTTPError);
      [destruct (status_code r =? 400); now split |].
    destruct (isinstance e RequestException); now split.
  - cbn [mbind io_bind]. unfold io_try. cbn [find_clause].
    destruct (isinstance e HTTPError); [now split |].
    destruct (isinstance e RequestException); now split.
Qed.

Lemma init_ai_silent (w : world) (env : environ) : silent (init_ai w env).
Proof.
  unfold init_ai, WeatherAI.
  destruct (OpenAI w (or_else (OPENAI_API_KEY env) (OPENAI_API_KEY env))) as [[] | e];
    [now split |].
  cbn [mbind io_bind]. unfold io_try. cbn [find_clause].
  destruct (isinstance e Exception); now split.
Qed.

Lemma startup_silent (w : world) (env : environ) : silent (startup w env).
Proof.
  unfold startup.
  repeat first [ apply init_ai_silent | progress silent_steps ].
Qed.

(** Without a key for the OpenAI client, whose constructor then raises,
    the module sets [ai_enabled] to [False]. *)
Lemma init_ai_without_key (w : world) (env : environ) (e : exc) :
  OPENAI_API_KEY env = None ->
  OpenAI w None = Raise e ->
  isinstance e Exception = true ->
  fst (init_ai w env) = Return false.
Proof.
  intros Hkey Hctor He. unfold init_ai, WeatherAI. rewrite Hkey. cbn [or_else].
  rewrite Hctor. cbn [mbind io_bind]. unfold io_try. cbn [find_clause].
  now rewrite He.
Qed.

Lemma fst_startup (w : world) (env : environ) : fst (startup w env) = fst (init_ai w env).
Proof.
  unfold startup. rewrite fst_bind. cbn [emit fst]. rewrite fst_bind.
  now destruct (fst (init_ai w env)).
Qed.

(** C6: with no weather key in the environment, [main] shows the setup
    instruction and stops, and the run performs no weather lookup; with a
    weather key and no OpenAI key (the client's constructor refusing to be
    built without one), insights are disabled, the lookup for the city typed
    is still issued, and no insight is requested. *)
Theorem configuration_gates (py : builtins) (w : world) (env : environ) (typed : string) :
  (WEATHER_API_KEY env = None ->
   (forall ai_enabled,
       main py w env ai_enabled typed
       = (Return tt,
          [StError weather_key_instruction;
           StCode (env_snippet "WEATHER_API_KEY=your_weather_api_key")]))
   /\ lookups (snd (run py w env typed)) = [])
  /\ (forall key e,
        WEATHER_API_KEY env = Some key -> key <> EmptyString ->
        OPENAI_API_KEY env = None ->
        OpenAI w None = Raise e -> isinstance e Exception = true ->
        typed <> EmptyString ->
        fst (startup w env) = Return false
        /\ lookups (snd (run py w env typed)) = [HttpGet (request_url env typed "yes")]
        /\ insight_requests (snd (run py w env typed)) = []).
Proof.
  split.
  - intros Hkey.
    assert (forall ai_enabled,
               main py w env ai_enabled typed
               = (Return tt,
                  [StError weather_key_instruction;
                   StCode (env_snippet "WEATHER_API_KEY=your_weather_api_key")])) as Hmain.
    { intros ai. unfold main. rewrite Hkey. reflexivity. }
    split; [exact Hmain |].
    unfold run, lookups. rewrite filter_bind.
    destruct (startup_silent w env) as [Hl _]. unfold lookups in Hl. rewrite Hl.
    destruct (fst (startup w env)) as [ai | e]; [| reflexivity].
    now rewrite Hmain.
  - intros key e Hwkey Hnonempty Hokey Hctor He Htyped.
    pose proof (init_ai_without_key w env e Hokey Hctor He) as Hinit.
    rewrite <- fst_startup in Hinit.
    split; [exact Hinit |].
    destruct (startup_silent w env) as [Hsl Hsi].
    destruct (fetch_trace w env typed "yes" Htyped) as [Hfl Hfi].
    assert (forall data,
               silent (if truthy data then display_weather_info py w false data
                       else mret tt)) as Hshow.
    { intros data. apply silent_if; [apply display_without_ai_silent | apply silent_mret]. }
    assert (forall (A : Type) (o : outcome A),
               match o with Return _ => [] | Raise _ => @nil event end = []) as Hboth
      by (now intros A []).
    unfold lookups, insight_requests in *.
    unfold run. rewrite !filter_bind, Hinit, Hsl, Hsi.
    unfold main. rewrite Hwkey. cbv iota. rewrite (nonempty_truthy key Hnonempty).
    rewrite (nonempty_truthy typed Htyped). cbn [negb].
    rewrite !filter_bind, Hfl, Hfi.
    split.
    + cbn [emit fst snd List.filter is_lookup app mbind io_bind].
      rewrite Hboth, List.app_nil_r.
      destruct (fst (get_current_weather w env typed "yes")) as [data | e'];
        [| reflexivity].
      destruct (Hshow data) as [Hl _]. unfold lookups in Hl. now rewrite Hl.
    + cbn [emit fst snd List.filter is_insight_request app mbind io_bind].
      rewrite Hboth, List.app_nil_r.
      destruct (fst (get_current_weather w env typed "yes")) as [data | e'];
        [| reflexivity].
      destruct (Hshow data) as [_ Hi]. unfold insight_requests in Hi. now rewrite Hi.
Qed.

Lemma configuration_gates_sample :
  ((forall ai_enabled,
       main Sample.cpython (Sample.replying "None") Sample.no_weather_key ai_enabled "London"
       = (Return tt,
          [StError weather_key_instruction;
           StCode (env_snippet "WEATHER_API_KEY=your_weather_api_key")]))
   /\ lookups (snd (run Sample.cpython (Sample.replying "None") Sample.no_weather_key
                      "London")) = [])
  /\ (fst (startup (Sample.replying "None") Sample.no_openai_key) = Return false
      /\ lookups (snd (run Sample.cpython (Sample.replying "None") Sample.no_openai_key
                         "London"))
         = [HttpGet "https://api.weatherapi.com/v1/current.json?key=wkey&q=London&aqi=yes"]
      /\ insight_requests (snd (run Sample.cpython (Sample.replying "None")
                                  Sample.no_openai_key "London")) = []).
Proof.
  split.
  - exact (proj1 (configuration_gates Sample.cpython (Sample.replying "None")
                    Sample.no_weather_key "London") eq_refl).
  - refine (proj2 (configuration_gates Sample.cpython (Sample.replying "None")
                     Sample.no_openai_key "London")
              "wkey" _ eq_refl _ eq_refl eq_refl eq_refl _); discriminate.
Defined.

(** With both keys set and the model replying None, the page fails when it
    reads the four fields off the result. *)
Example run_with_evaluated_reply :
  error_reports (snd (run Sample.cpython (Sample.replying "None") Sample.with_keys "London"))
  = [StError "Error getting AI insights: 'NoneType' object is not subscriptable"].
Proof. reflexivity. Qed.

(** A reply that asks the chat client again when it is evaluated: the
    second request is made, by the reply and not by a statement of the
    program, and the response object comes back as the insights. *)
Example evaluated_reply_asks_again :
  exists prompt : string,
    prepared_prompt Sample.scripted Sample.london = Return prompt
    /\ analyze_weather Sample.scripted (Sample.replying Sample.ask_again) Sample.london
       = (Return (Opaque 1),
          [ChatCompletion "gpt-3.5-turbo" system_message prompt;
           Foreign [ChatCompletion "gpt-4" "Go on." prompt] unchanged]).
Proof. eexists. split; reflexivity. Qed.

(** A reply that empties the [current] dict when it is evaluated: the
    insights section reports that [None] cannot be subscripted, and the
    details after it fail on the first reading they take from [current]. *)
Example evaluated_reply_clears_current :
  fst (display_weather_info Sample.scripted (Sample.replying Sample.clear_current) true
         Sample.london)
  = Raise (KeyError_of "wind_kph")
  /\ error_reports
       (snd (display_weather_info Sample.scripted (Sample.replying Sample.clear_current)
               true Sample.london))
     = [StError "Error getting AI insights: 'NoneType' object is not subscriptable"].
Proof. split; reflexivity. Qed.

(** ** More on the descriptors *)

Lemma comfort_text_injective (b b' : comfort_band) :
  comfort_text b = comfort_text b' -> b = b'.
Proof. destruct b, b'; intros H; try reflexivity; discriminate H. Qed.

Lemma wind_text_injective (b b' : wind_band) : wind_text b = wind_text b' -> b = b'.
Proof. destruct b, b'; intros H; try reflexivity; discriminate H. Qed.

Lemma comfort_rank_monotone (v v' : Q) (b b' : comfort_band) :
  (v <= v')%Q -> in_comfort_band b v -> in_comfort_band b' v' ->
  (comfort_rank b <= comfort_rank b')%nat.
Proof.
  intros Hv Hb Hb'.
  destruct b, b'; simpl in *; try lia; exfalso; lra.
Qed.

Lemma wind_rank_monotone (v v' : Q) (b b' : wind_band) :
  (v <= v')%Q -> in_wind_band b v -> in_wind_band b' v' ->
  (wind_rank b <= wind_rank b')%nat.
Proof.
  intros Hv Hb Hb'.
  destruct b, b'; simpl in *; try lia; exfalso; lra.
Qed.

(** The comfort bands are ordered as the temperatures are: of two feels-like
    values, the higher never gets a colder band. *)
Theorem temp_description_monotone (x x' : pyval) (v v' : Q) (b b' : comfort_band) :
  as_number x = Some (FFin v) ->
  as_number x' = Some (FFin v') ->
  (v <= v')%Q ->
  _get_temp_description x = Return (comfort_text b) ->
  _get_temp_description x' = Return (comfort_text b') ->
  (comfort_rank b <= comfort_rank b')%nat.
Proof.
  intros Hx Hx' Hv Hd Hd'.
  destruct (comfort_band_total v) as [c Hc].
  destruct (comfort_band_total v') as [c' Hc'].
  rewrite (temp_description_of_band x v c Hx Hc) in Hd.
  rewrite (temp_description_of_band x' v' c' Hx' Hc') in Hd'.
  injection Hd as Hd. injection Hd' as Hd'.
  apply comfort_text_injective in Hd, Hd'. subst c c'.
  exact (comfort_rank_monotone v v' b b' Hv Hc Hc').
Qed.

Lemma temp_description_monotone_sample :
  (comfort_rank VeryColdToFrigid <= comfort_rank CoolToMild)%nat.
Proof.
  refine (temp_description_monotone (VInt (-5)) (VFloat (FFin 20)) (-5) 20
            VeryColdToFrigid CoolToMild eq_refl eq_refl _ eq_refl eq_refl).
  unfold Qle; simpl; lia.
Defined.

(** The wind bands are ordered as the speeds are, for speeds from 0 up. *)
Theorem wind_description_monotone (x x' : pyval) (v v' : Q) (b b' : wind_band) :
  as_number x = Some (FFin v) ->
  as_number x' = Some (FFin v') ->
  (0 <= v)%Q -> (v <= v')%Q ->
  _get_wind_description x = Return (wind_text b) ->
  _get_wind_description x' = Return (wind_text b') ->
  (wind_rank b <= wind_rank b')%nat.
Proof.
  intros Hx Hx' H0 Hv Hd Hd'.
  destruct (wind_band_total v H0) as [c Hc].
  destruct (wind_band_total v' (Qle_trans _ _ _ H0 Hv)) as [c' Hc'].
  rewrite (wind_description_of_band x v c Hx Hc) in Hd.
  rewrite (wind_description_of_band x' v' c' Hx' Hc') in Hd'.
  injection Hd as Hd. injection Hd' as Hd'.
  apply wind_text_injective in Hd, Hd'. subst c c'.
  exact (wind_rank_monotone v v' b b' Hv Hc Hc').
Qed.

Lemma wind_description_monotone_sample :
  (wind_rank GentleBreeze <= wind_rank StrongWind)%nat.
Proof.
  refine (wind_description_monotone (VInt 8) (VInt 25) 8 25 GentleBreeze StrongWind
            eq_refl eq_refl _ _ eq_refl eq_refl); unfold Qle; simpl; lia.
Defined.

(** A wind speed below 0 is not refused: it gets the calmest band. *)
Theorem wind_description_below_zero (x : pyval) (v : Q) :
  as_number x = Some (FFin v) -> (v < 0)%Q ->
  _get_wind_description x = Return "very light breeze".
Proof.
  intros Hx Hv. unfold _get_wind_description. rewrite (py_lt_number x v Hx 5).
  assert (Qlt_bool v (inject_Z 5) = true) as ->
    by (apply Qlt_bool_iff; unfold inject_Z; lra).
  reflexivity.
Qed.

Lemma wind_description_below_zero_sample :
  _get_wind_description (VInt (-3)) = Return "very light breeze".
Proof.
  refine (wind_description_below_zero (VInt (-3)) (-3) eq_refl _).
  unfold Qlt; simpl; lia.
Defined.

(** The two descriptors that compare return on every number, the special
    floats included, and raise [TypeError] at their first comparison on
    anything else. *)
Theorem descriptors_need_a_number (x : pyval) :
  if is_number x
  then (exists d, _get_temp_description x = Return d)
       /\ (exists d, _get_wind_description x = Return d)
  else _get_temp_description x = Raise (unsupported_operands "<" x (VInt (-20)))
       /\ _get_wind_description x = Raise (unsupported_operands "<" x (VInt 5)).
Proof.
  destruct (is_number x) eqn:Hx.
  - pose proof (yields_temp_description x Hx) as Ht.
    pose proof (yields_wind_description x Hx) as Hw.
    destruct (_get_temp_description x) as [d |]; [| contradiction].
    destruct (_get_wind_description x) as [d' |]; [| contradiction].
    split; eexists; reflexivity.
  - unfold is_number in Hx. unfold _get_temp_description, _get_wind_description, py_lt.
    destruct (as_number x); [discriminate |]. split; reflexivity.
Qed.

(** The air-quality table is looked up by value: a float or a bool equal to
    an int gets what the int gets. *)
Theorem aqi_description_by_value (x : pyval) (q : Q) (z : Z) :
  as_number x = Some (FFin q) -> (q == inject_Z z)%Q ->
  _get_aqi_description x = _get_aqi_description (VInt z).
Proof.
  intros Hx Hq.
  assert (as_int_key x = Some z) as Hkey.
  { unfold as_int_key. rewrite Hx.
    assert (Qfloor q = z) as -> by (rewrite Hq; apply Qfloor_Z).
    now rewrite (proj2 (Qeq_bool_iff _ _) Hq). }
  unfold _get_aqi_description. rewrite Hkey, as_int_key_int.
  destruct x; try reflexivity; discriminate Hx.
Qed.

Lemma aqi_description_by_value_sample :
  _get_aqi_description (VFloat (FFin 2)) = _get_aqi_description (VInt 2).
Proof.
  refine (aqi_description_by_value (VFloat (FFin 2)) 2 2 eq_refl _). reflexivity.
Defined.

(** ** More on the summary *)

Lemma append_assoc (a b c : string) : (a ++ b) ++ c = a ++ (b ++ c).
Proof.
  induction a as [| x a IH]; [reflexivity |].
  change (String x ((a ++ b) ++ c) = String x (a ++ (b ++ c))). now rewrite IH.
Qed.

Lemma template_wind_sentence
      (time_of_day location_name comfort condition_lower temp feels_like humidity
       wind_desc wind_kph chill advice : string) :
  Text.contains ("blowing at " ++ wind_kph ++ " km/h" ++ chill ++ ". ")
    (summary_template time_of_day location_name comfort condition_lower temp feels_like
       humidity wind_desc wind_kph chill advice) = true.
Proof.
  unfold summary_template.
  repeat (lazymatch goal with
          | |- Text.contains _ ("blowing at " ++ _) = true => fail
          | _ => apply contains_app_r
          end).
  match goal with
  | |- Text.contains ?x (_ ++ _ ++ _ ++ _ ++ _ ++ ?rest) = true =>
      replace ("blowing at " ++ wind_kph ++ " km/h" ++ chill ++ ". " ++ rest)
        with (x ++ rest) by (now rewrite !append_assoc)
  end.
  apply contains_here.
Qed.

Lemma template_advice
      (time_of_day location_name comfort condition_lower temp feels_like humidity
       wind_desc wind_kph chill advice : string) :
  Text.contains (Text.indent ++ advice ++ " " ++ Text.nl)
    (summary_template time_of_day location_name comfort condition_lower temp feels_like
       humidity wind_desc wind_kph chill advice) = true.
Proof.
  unfold summary_template.
  repeat (lazymatch goal with
          | |- Text.contains _ (Text.indent ++ advice ++ _) = true => fail
          | _ => apply contains_app_r
          end).
  match goal with
  | |- Text.contains ?x (_ ++ _ ++ _ ++ _ ++ ?rest) = true =>
      replace (Text.indent ++ advice ++ " " ++ Text.nl ++ rest)
        with (x ++ rest) by (now rewrite !append_assoc)
  end.
  apply contains_here.
Qed.

(** On every well-formed observation whose numbers can be printed the
    summary closes with the advice the thresholds select (layer up below a
    feels-like of 10; otherwise stay hydrated above 25 degrees; otherwise
    enjoy), and its wind sentence carries the cold-sensation remark exactly
    when it feels colder than it is. *)
Theorem weather_summary_advice (py : builtins) (wd : pyval) (o : observation) :
  observes wd o ->
  observation_printable py o = true ->
  exists s wind_text : string,
    get_weather_summary py wd = Return s
    /\ py_str py (number_val (obs_wind o)) = Return wind_text
    /\ Text.contains (Text.indent ++ advice_for o ++ " " ++ Text.nl) s = true
    /\ Text.contains ("blowing at " ++ wind_text ++ " km/h" ++ chill_for o ++ ". ") s = true.
Proof.
  intros Hobs Hprint.
  destruct (observation_texts py o Hprint)
    as (temp_text & feels_text & humidity_text & wind_text & Pt & Pf & Ph & Pw).
  destruct (summary_body_observed py wd o _ _ _ _ Hobs Pt Pf Ph Pw)
    as (b & wind_desc & _ & Hs).
  eexists. exists wind_text. unfold get_weather_summary. rewrite Hs. cbn [try_except].
  split; [reflexivity |].
  split; [exact Pw |].
  split; [apply template_advice | apply template_wind_sentence].
Qed.

Lemma observes_seville : observes Sample.seville Sample.seville_observation.
Proof. repeat split. Qed.

Lemma weather_summary_advice_seville :
  exists s wind_text : string,
    get_weather_summary Sample.cpython Sample.seville = Return s
    /\ py_str Sample.cpython (VInt 3) = Return wind_text
    /\ Text.contains (Text.indent ++ "Stay hydrated" ++ " " ++ Text.nl) s = true
    /\ Text.contains ("blowing at " ++ wind_text ++ " km/h" ++ EmptyString ++ ". ") s = true.
Proof.
  exact (weather_summary_advice Sample.cpython Sample.seville Sample.seville_observation
           observes_seville eq_refl).
Defined.

(** ** More on the insight generator *)

Lemma pure_Return_bind {A B} (a : A) (k : A -> io B) : pure (Return a) ≫= k = k a.
Proof. unfold pure. cbn [mbind io_bind]. now destruct (k a). Qed.

Lemma outcome_Return_bind {A B} (a : A) (k : A -> outcome B) : Return a ≫= k = k a.
Proof. reflexivity. Qed.

(** [analyze_weather] is its preparation, then the chat request, inside the
    outer [try]. *)
Lemma analyze_weather_prepared (py : builtins) (w : world) (wd : pyval) :
  analyze_weather py w wd
  = io_try (pure (prepared_prompt py wd) ≫= request_insights py w wd)
      [(Exception, report_and_fall_back)].
Proof.
  unfold analyze_weather, prepared_prompt.
  destruct (getitem wd "current") as [current | e]; [| reflexivity].
  rewrite pure_Return_bind, outcome_Return_bind.
  destruct (getitem current "temp_c") as [temp_c | e]; [| reflexivity].
  rewrite pure_Return_bind, outcome_Return_bind.
  destruct (getitem current "condition" ≫= _) as [condition | e]; [| reflexivity].
  rewrite pure_Return_bind, outcome_Return_bind.
  destruct (getitem current "humidity") as [humidity | e]; [| reflexivity].
  rewrite pure_Return_bind, outcome_Return_bind.
  destruct (getitem current "wind_kph") as [wind_kph | e]; [| reflexivity].
  rewrite pure_Return_bind, outcome_Return_bind.
  destruct (getitem current "air_quality" ≫= _) as [aqi | e]; [| reflexivity].
  rewrite pure_Return_bind, outcome_Return_bind.
  destruct (getitem current "feelslike_c") as [feels_like | e]; [| reflexivity].
  rewrite pure_Return_bind, outcome_Return_bind.
  destruct (getitem current "heatindex_c") as [heat_index | e]; [| reflexivity].
  rewrite pure_Return_bind, outcome_Return_bind.
  destruct (getitem current "is_day") as [is_day | e]; [| reflexivity].
  rewrite pure_Return_bind, outcome_Return_bind.
  reflexivity.
Qed.

Lemma ordinary_prepared_prompt (py : builtins) (wd : pyval) :
  ordinary (prepared_prompt py wd).
Proof.
  unfold prepared_prompt.
  repeat first
    [ apply ordinary_analysis_prompt
    | apply ordinary_getitem
    | apply ordinary_bind; [| intros ?] ].
Qed.

Lemma aqi_description_Return_hashable (x : pyval) (d : string) :
  _get_aqi_description x = Return d -> hashable x = true.
Proof. now destruct x. Qed.

Lemma yields_aqi_description (x : pyval) :
  hashable x = true -> yields anything (_get_aqi_description x).
Proof.
  unfold _get_aqi_description. destruct x; try discriminate; intros _;
    now destruct (as_int_key _).
Qed.

Lemma has_three (wd c1 c2 x : pyval) (k1 k2 k3 : string) (test : pyval -> bool) :
  getitem wd k1 = Return c1 -> getitem c1 k2 = Return c2 -> getitem c2 k3 = Return x ->
  test x = true ->
  has wd [k1; k2; k3] test = true.
Proof.
  intros H1 H2 H3 Ht. unfold has.
  assert (at_path wd [k1; k2; k3] = Some x) as ->; [| exact Ht].
  apply at_path_cons. exists c1. split; [exact H1 |].
  apply at_path_cons. exists c2. split; [exact H2 |].
  apply at_path_cons. exists x. now split.
Qed.

Lemma has_three_inv (wd : pyval) (k1 k2 k3 : string) (test : pyval -> bool) :
  has wd [k1; k2; k3] test = true ->
  exists c1 c2 x,
    getitem wd k1 = Return c1 /\ getitem c1 k2 = Return c2 /\ getitem c2 k3 = Return x
    /\ test x = true.
Proof.
  unfold has. destruct (at_path wd [k1; k2; k3]) as [x |] eqn:E; [| discriminate].
  intros Ht. apply at_path_cons in E as (c1 & H1 & E).
  apply at_path_cons in E as (c2 & H2 & E).
  apply at_path_cons in E as (x' & H3 & [= ->]).
  now exists c1, c2, x.
Qed.

(** The preparation returns only on a document that has all it reads, with
    values that can be printed. *)
Lemma prepared_prompt_Return_ready (py : builtins) (wd : pyval) (prompt : string) :
  prepared_prompt py wd = Return prompt ->
  insight_ready wd = true /\ insight_printable py wd = true.
Proof.
  unfold prepared_prompt. intros H.
  apply bind_Return_inv in H as (current & Hcur & H).
  apply bind_Return_inv in H as (temp & Htemp & H).
  apply bind_Return_inv in H as (condition & Hcond & H).
  apply bind_Return_inv in Hcond as (cond & Hcond & Htext).
  apply bind_Return_inv in H as (humidity & Hhum & H).
  apply bind_Return_inv in H as (wind & Hwind & H).
  apply bind_Return_inv in H as (aqi & Haqi & H).
  apply bind_Return_inv in Haqi as (air & Hair & Haqi).
  apply bind_Return_inv in H as (feels & Hfeels & H).
  apply bind_Return_inv in H as (heat & Hheat & H).
  apply bind_Return_inv in H as (is_day & Hday & H).
  unfold analysis_prompt in H.
  apply bind_Return_inv in H as (temp_text & Ptemp & H).
  apply bind_Return_inv in H as (feels_text & Pfeels & H).
  apply bind_Return_inv in H as (temp_desc & Hdesc & H).
  apply bind_Return_inv in H as (heat_text & Pheat & H).
  apply bind_Return_inv in H as (humidity_text & Phum & H). cbv zeta in H.
  apply bind_Return_inv in H as (condition_text & Pcond & H).
  apply bind_Return_inv in H as (wind_text & Pwind & H).
  apply bind_Return_inv in H as (wind_desc & Hwd & H).
  apply bind_Return_inv in H as (aqi_text & Paqi & H).
  apply bind_Return_inv in H as (aqi_desc & Had & H).
  apply bind_Return_inv in H as (name & Hname & H).
  apply bind_Return_inv in Hname as (loc & Hloc & Hname).
  apply bind_Return_inv in H as (name_text & Pname & _).
  apply temp_description_Return_number in Hdesc.
  apply wind_description_Return_number in Hwd.
  apply aqi_description_Return_hashable in Had.
  apply text_printable in Ptemp, Pfeels, Pheat, Phum, Pcond, Pwind, Paqi, Pname.
  unfold insight_ready, insight_printable.
  rewrite (has_two wd current temp _ _ present Hcur Htemp eq_refl).
  rewrite (has_three wd current cond condition _ _ _ present Hcur Hcond Htext eq_refl).
  rewrite (has_two wd current humidity _ _ present Hcur Hhum eq_refl).
  rewrite (has_two wd current wind _ _ _ Hcur Hwind Hwd).
  rewrite (has_three wd current air aqi _ _ _ _ Hcur Hair Haqi Had).
  rewrite (has_two wd current feels _ _ _ Hcur Hfeels Hdesc).
  rewrite (has_two wd current heat _ _ present Hcur Hheat eq_refl).
  rewrite (has_two wd current is_day _ _ present Hcur Hday eq_refl).
  rewrite (has_two wd loc name _ _ present Hloc Hname eq_refl).
  rewrite (has_two wd current temp _ _ _ Hcur Htemp Ptemp).
  rewrite (has_two wd current feels _ _ _ Hcur Hfeels Pfeels).
  rewrite (has_two wd current heat _ _ _ Hcur Hheat Pheat).
  rewrite (has_two wd current humidity _ _ _ Hcur Hhum Phum).
  rewrite (has_three wd current cond condition _ _ _ _ Hcur Hcond Htext Pcond).
  rewrite (has_two wd current wind _ _ _ Hcur Hwind Pwind).
  rewrite (has_three wd current air aqi _ _ _ _ Hcur Hair Haqi Paqi).
  rewrite (has_two wd loc name _ _ _ Hloc Hname Pname).
  now split.
Qed.

(** ... and on every such document it does return. *)
Lemma prepared_prompt_ready (py : builtins) (wd : pyval) :
  insight_ready wd = true -> insight_printable py wd = true ->
  yields anything (prepared_prompt py wd).
Proof.
  unfold insight_ready, insight_printable. rewrite !andb_true_iff.
  intros [[[[[[[[Htemp Hcond] Hhum] Hwind] Haqi] Hfeels] Hheat] Hday] Hname]
         [[[[[[[Ptemp Pfeels] Pheat] Phum] Pcond] Pwind] Paqi] Pname].
  apply has_two_inv in Htemp as (cur & temp & Hcur & Htemp & _).
  apply has_three_inv in Hcond as (cur' & cond & text & Hcur' & Hcond & Htext & _).
  rewrite Hcur in Hcur'. injection Hcur' as <-.
  apply has_two_inv in Hhum as (cur' & hum & Hcur' & Hhum & _).
  rewrite Hcur in Hcur'. injection Hcur' as <-.
  apply has_two_inv in Hwind as (cur' & wind & Hcur' & Hwind & Nwind).
  rewrite Hcur in Hcur'. injection Hcur' as <-.
  apply has_three_inv in Haqi as (cur' & air & aqi & Hcur' & Hair & Haqi & Naqi).
  rewrite Hcur in Hcur'. injection Hcur' as <-.
  apply has_two_inv in Hfeels as (cur' & feels & Hcur' & Hfeels & Nfeels).
  rewrite Hcur in Hcur'. injection Hcur' as <-.
  apply has_two_inv in Hheat as (cur' & heat & Hcur' & Hheat & _).
  rewrite Hcur in Hcur'. injection Hcur' as <-.
  apply has_two_inv in Hday as (cur' & day & Hcur' & Hday & _).
  rewrite Hcur in Hcur'. injection Hcur' as <-.
  apply has_two_inv in Hname as (loc & name & Hloc & Hname & _).
  apply has_two_inv in Ptemp as (cur' & x & Hcur' & Hx & Ptemp).
  rewrite Hcur in Hcur'. injection Hcur' as <-. rewrite Htemp in Hx. injection Hx as <-.
  apply has_two_inv in Pfeels as (cur' & x & Hcur' & Hx & Pfeels).
  rewrite Hcur in Hcur'. injection Hcur' as <-. rewrite Hfeels in Hx. injection Hx as <-.
  apply has_two_inv in Pheat as (cur' & x & Hcur' & Hx & Pheat).
  rewrite Hcur in Hcur'. injection Hcur' as <-. rewrite Hheat in Hx. injection Hx as <-.
  apply has_two_inv in Phum as (cur' & x & Hcur' & Hx & Phum).
  rewrite Hcur in Hcur'. injection Hcur' as <-. rewrite Hhum in Hx. injection Hx as <-.
  apply has_three_inv in Pcond as (cur' & c' & x & Hcur' & Hc' & Hx & Pcond).
  rewrite Hcur in Hcur'. injection Hcur' as <-. rewrite Hcond in Hc'. injection Hc' as <-.
  rewrite Htext in Hx. injection Hx as <-.
  apply has_two_inv in Pwind as (cur' & x & Hcur' & Hx & Pwind).
  rewrite Hcur in Hcur'. injection Hcur' as <-. rewrite Hwind in Hx. injection Hx as <-.
  apply has_three_inv in Paqi as (cur' & a' & x & Hcur' & Ha' & Hx & Paqi).
  rewrite Hcur in Hcur'. injection Hcur' as <-. rewrite Hair in Ha'. injection Ha' as <-.
  rewrite Haqi in Hx. injection Hx as <-.
  apply has_two_inv in Pname as (loc' & x & Hloc' & Hx & Pname).
  rewrite Hloc in Hloc'. injection Hloc' as <-. rewrite Hname in Hx. injection Hx as <-.
  apply printable_text in Ptemp as [temp_text Ptemp].
  apply printable_text in Pfeels as [feels_text Pfeels].
  apply printable_text in Pheat as [heat_text Pheat].
  apply printable_text in Phum as [humidity_text Phum].
  apply printable_text in Pcond as [condition_text Pcond].
  apply printable_text in Pwind as [wind_text Pwind].
  apply printable_text in Paqi as [aqi_text Paqi].
  apply printable_text in Pname as [name_text Pname].
  unfold prepared_prompt.
  rewrite Hcur, outcome_Return_bind, Htemp, outcome_Return_bind.
  rewrite Hcond, outcome_Return_bind, Htext, outcome_Return_bind.
  rewrite Hhum, outcome_Return_bind, Hwind, outcome_Return_bind.
  rewrite Hair, outcome_Return_bind, Haqi, outcome_Return_bind.
  rewrite Hfeels, outcome_Return_bind, Hheat, outcome_Return_bind.
  rewrite Hday, outcome_Return_bind.
  unfold analysis_prompt.
  rewrite Ptemp, outcome_Return_bind, Pfeels, outcome_Return_bind.
  apply yields_bind; [now apply yields_temp_description |]. intros temp_desc.
  rewrite Pheat, outcome_Return_bind, Phum, outcome_Return_bind. cbv zeta.
  rewrite Pcond, outcome_Return_bind, Pwind, outcome_Return_bind.
  apply yields_bind; [now apply yields_wind_description |]. intros wind_desc.
  rewrite Paqi, outcome_Return_bind.
  apply yields_bind; [now apply yields_aqi_description |]. intros aqi_desc.
  rewrite Hloc, outcome_Return_bind, Hname, outcome_Return_bind.
  rewrite Pname, outcome_Return_bind.
  exact I.
Qed.

(** The inner [try] with its bare [except]: it always returns, and all it
    causes is what the evaluated reply does. *)
Lemma parsed_reply (py : builtins) (scope : eval_scope) (response : chat_response) :
  io_try (text ← pure (reply_text py response); foreign (builtin_eval py scope text))
    [(BaseException, fun _ => mret (Plain fallback_insights))]
  = match reply_text py response with
    | Return text =>
        (Return match run_outcome (builtin_eval py scope text) with
                | Return v => v
                | Raise _ => Plain fallback_insights
                end,
         [Foreign (run_events (builtin_eval py scope text))
                  (run_leaves (builtin_eval py scope text))])
    | Raise _ => (Return (Plain fallback_insights), [])
    end.
Proof.
  destruct (reply_text py response) as [text | e].
  - rewrite pure_Return_bind. unfold foreign.
    destruct (run_outcome (builtin_eval py scope text)) as [v | e]; [reflexivity |].
    unfold io_try. cbn [find_clause].
    now rewrite every_exception_is_a_BaseException.
  - unfold pure. cbn [mbind io_bind]. unfold io_try. cbn [find_clause].
    now rewrite every_exception_is_a_BaseException.
Qed.

(** When a reading the prompt needs is missing or cannot be classified (a
    feels-like temperature or wind speed that is no number, an air-quality
    index that is a list or a dict), the model is never asked: the error is
    printed and the fallback object returned. *)
Theorem analyze_weather_without_request (py : builtins) (w : world) (wd : pyval) :
  insight_ready wd = false ->
  exists e : exc,
    prepared_prompt py wd = Raise e
    /\ analyze_weather py w wd
       = (Return (Plain fallback_insights),
          [Print ("Error in analyze_weather: " ++ exc_str e)]).
Proof.
  intros Hnot. rewrite analyze_weather_prepared.
  pose proof (ordinary_prepared_prompt py wd) as Hord.
  destruct (prepared_prompt py wd) as [prompt | e] eqn:Hprep.
  - apply prepared_prompt_Return_ready in Hprep as [Hready _]. congruence.
  - exists e. split; [reflexivity |]. simpl in Hord.
    unfold pure. cbn [mbind io_bind]. unfold io_try. cbn [find_clause].
    now rewrite Hord.
Qed.

Lemma analyze_weather_without_request_sample :
  exists e : exc,
    prepared_prompt Sample.cpython Sample.no_air_quality = Raise e
    /\ analyze_weather Sample.cpython (Sample.replying "None") Sample.no_air_quality
       = (Return (Plain fallback_insights),
          [Print ("Error in analyze_weather: " ++ exc_str e)]).
Proof.
  exact (analyze_weather_without_request Sample.cpython (Sample.replying "None")
           Sample.no_air_quality eq_refl).
Defined.

(** On a document that has all the prompt reads, with values that can be
    printed, the first effect is one chat completion request, with the fixed
    model name and system message and the prepared prompt; what follows it
    is nothing, or the printed error line, or the run of the evaluated
    reply. *)
Theorem analyze_weather_one_request (py : builtins) (w : world) (wd : pyval) :
  insight_ready wd = true ->
  insight_printable py wd = true ->
  exists (prompt : string) (rest : list event),
    prepared_prompt py wd = Return prompt
    /\ snd (analyze_weather py w wd)
       = ChatCompletion "gpt-3.5-turbo" system_message prompt :: rest
    /\ (rest = []
        \/ (exists e, rest = [Print ("Error in analyze_weather: " ++ exc_str e)])
        \/ (exists did after, rest = [Foreign did after])).
Proof.
  intros Hready Hprint. rewrite analyze_weather_prepared.
  pose proof (prepared_prompt_ready py wd Hready Hprint) as Hprep.
  destruct (prepared_prompt py wd) as [prompt | e]; [| contradiction].
  rewrite pure_Return_bind. unfold request_insights.
  destruct (chat_completions_create w "gpt-3.5-turbo" system_message prompt)
    as [response | e].
  - cbn [mbind io_bind]. rewrite parsed_reply.
    destruct (reply_text py response) as [text | e].
    + exists prompt. eexists. split; [reflexivity |]. split; [reflexivity |].
      right; right. now do 2 eexists.
    + exists prompt, []. split; [reflexivity |]. split; [reflexivity | now left].
  - cbn [mbind io_bind]. unfold io_try. cbn [find_clause].
    destruct (isinstance e Exception).
    + exists prompt, [Print ("Error in analyze_weather: " ++ exc_str e)].
      split; [reflexivity |]. split; [reflexivity |]. right; left. now exists e.
    + exists prompt, []. split; [reflexivity |]. split; [reflexivity | now left].
Qed.

Lemma analyze_weather_one_request_sample :
  exists (prompt : string) (rest : list event),
    prepared_prompt Sample.cpython Sample.london = Return prompt
    /\ snd (analyze_weather Sample.cpython (Sample.replying "None") Sample.london)
       = ChatCompletion "gpt-3.5-turbo" system_message prompt :: rest
    /\ (rest = []
        \/ (exists e, rest = [Print ("Error in analyze_weather: " ++ exc_str e)])
        \/ (exists did after, rest = [Foreign did after])).
Proof.
  exact (analyze_weather_one_request Sample.cpython (Sample.replying "None") Sample.london
           eq_refl eq_refl).
Defined.

(** On a document that has all the prompt reads, with values that can be
    printed, whatever [eval] makes of the reply is returned as it is:
    nothing checks that it is a dict, or that it has the four fields. *)
Theorem analyze_weather_returns_what_eval_returns
        (py : builtins) (w : world) (wd : pyval)
        (response : chat_response) (text : string) (v : pyobj) :
  insight_ready wd = true ->
  insight_printable py wd = true ->
  (forall prompt,
      chat_completions_create w "gpt-3.5-turbo" system_message prompt = Return response) ->
  reply_text py response = Return text ->
  (forall scope, run_outcome (builtin_eval py scope text) = Return v) ->
  fst (analyze_weather py w wd) = Return v.
Proof.
  intros Hready Hprint Hcreate Htext Heval. rewrite analyze_weather_prepared.
  pose proof (prepared_prompt_ready py wd Hready Hprint) as Hprep.
  destruct (prepared_prompt py wd) as [prompt | e]; [| contradiction].
  rewrite pure_Return_bind, request_insights_outcome, Hcreate, Htext, Heval.
  reflexivity.
Qed.

Lemma analyze_weather_returns_what_eval_returns_sample :
  fst (analyze_weather Sample.cpython (Sample.replying " True ") Sample.london)
  = Return (Plain (VBool true)).
Proof.
  exact (analyze_weather_returns_what_eval_returns Sample.cpython
           (Sample.replying " True ") Sample.london (ChatResponse [Some " True "])
           "True" (Plain (VBool true)) eq_refl eq_refl (fun _ => eq_refl) eq_refl
           (fun _ => eq_refl)).
Defined.

(** A reply that cannot be used (no choice, a choice without text, or a
    text on which [eval] raises, whatever it raises) gives the fallback
    object. *)
Theorem analyze_weather_unusable_reply (py : builtins) (w : world) (wd : pyval) :
  (forall prompt,
      exists response,
        chat_completions_create w "gpt-3.5-turbo" system_message prompt = Return response
        /\ match reply_text py response with
           | Return text =>
               exists e,
                 run_outcome (builtin_eval py (scope_of w wd prompt response) text)
                 = Raise e
           | Raise _ => True
           end) ->
  fst (analyze_weather py w wd) = Return fallback_insights.
Proof.
  intros Hreply.
  apply (analyze_weather_by_request py w
           (fun r => r = Return (Plain fallback_insights)) eq_refl).
  intros prompt. rewrite request_insights_outcome.
  destruct (Hreply prompt) as (response & -> & Htext).
  destruct (reply_text py response) as [text | e]; [| reflexivity].
  now destruct Htext as (e & ->).
Qed.

Lemma analyze_weather_unusable_reply_sample :
  fst (analyze_weather Sample.cpython Sample.no_choices Sample.london)
  = Return fallback_insights.
Proof.
  refine (analyze_weather_unusable_reply Sample.cpython Sample.no_choices Sample.london _).
  intros prompt. eexists. split; [reflexivity | exact I].
Defined.

Lemma analyze_weather_client_fails_sample :
  fst (analyze_weather Sample.cpython Sample.chat_down Sample.london)
  = Return fallback_insights.
Proof.
  refine (analyze_weather_client_fails Sample.cpython Sample.chat_down Sample.london _).
  intros model system user. eexists. split; reflexivity.
Defined.

(** ** More on the weather fetcher *)

Lemma HTTPError_is_a_RequestException (e : exc) :
  isinstance e HTTPError = true -> isinstance e RequestException = true.
Proof. destruct e as [c msg]. now destruct c. Qed.

Ltac count_reports :=
  split;
  [ unfold lookups, io_try; simpl; lia
  | unfold error_reports, io_try; simpl; first [reflexivity | exact I] ].

(** Whatever the services do, one call of the fetcher issues at most one
    request and reports at most one error, and an error is reported only
    together with a [None] result. *)
Theorem fetch_reports_at_most_once (w : world) (env : environ) (city aqi : string) :
  (List.length (lookups (snd (get_current_weather w env city aqi))) <= 1)%nat
  /\ match error_reports (snd (get_current_weather w env city aqi)) with
     | [] => True
     | [_] => fst (get_current_weather w env city aqi) = Return VNone
     | _ => False
     end.
Proof.
  unfold get_current_weather.
  destruct (truthy (VStr city)); cbn [negb]; [| count_reports].
  cbv zeta.
  destruct (requests_get w (request_url env city aqi)) as [r | e].
  - cbn [mbind io_bind]. unfold raise_for_status.
    destruct ((400 <=? status_code r) && (status_code r <? 500));
      [| destruct ((500 <=? status_code r) && (status_code r <? 600))];
      cbn [pure mbind io_bind];
      try (destruct (status_code r =? 400); count_reports).
    destruct (json r) as [v | e]; [count_reports |].
    unfold io_try. cbn [find_clause].
    destruct (isinstance e HTTPError);
      [destruct (status_code r =? 400); count_reports |].
    destruct (isinstance e RequestException); count_reports.
  - cbn [mbind io_bind]. unfold io_try. cbn [find_clause].
    destruct (isinstance e HTTPError); [count_reports |].
    destruct (isinstance e RequestException); count_reports.
Qed.

(** Only the [RequestException] family is caught: any other exception of
    the request, or of decoding the body, leaves the fetcher as it is, and
    nothing is reported. *)
Theorem fetch_lets_other_exceptions_through
        (w : world) (env : environ) (city aqi : string) (e : exc) :
  city <> EmptyString ->
  (r ← requests_get w (request_url env city aqi); raise_for_status r;; json r) = Raise e ->
  isinstance e RequestException = false ->
  get_current_weather w env city aqi = (Raise e, [HttpGet (request_url env city aqi)]).
Proof.
  intros Hcity Hattempt Hother.
  assert (isinstance e HTTPError = false) as Hnot.
  { destruct (isinstance e HTTPError) eqn:H; [| reflexivity].
    apply HTTPError_is_a_RequestException in H. congruence. }
  unfold get_current_weather. rewrite (nonempty_truthy city Hcity). cbn [negb]. cbv zeta.
  destruct (requests_get w (request_url env city aqi)) as [r | e'].
  - rewrite outcome_Return_bind in Hattempt. cbn [mbind io_bind].
    destruct (raise_for_status r) as [[] | e'].
    + rewrite outcome_Return_bind in Hattempt. rewrite Hattempt.
      cbn [pure mbind io_bind]. unfold io_try. cbn [find_clause].
      now rewrite Hnot, Hother.
    + injection Hattempt as ->.
      cbn [pure mbind io_bind]. unfold io_try. cbn [find_clause].
      now rewrite Hnot, Hother.
  - injection Hattempt as ->.
    cbn [mbind io_bind]. unfold io_try. cbn [find_clause].
    now rewrite Hnot, Hother.
Qed.

Lemma fetch_lets_other_exceptions_through_sample :
  get_current_weather Sample.garbled_body Sample.with_keys "London" "yes"
  = (Raise (Exc ValueError "Expecting value: line 1 column 1 (char 0)"),
     [HttpGet (request_url Sample.with_keys "London" "yes")]).
Proof.
  refine (fetch_lets_other_exceptions_through Sample.garbled_body Sample.with_keys
            "London" "yes" _ _ eq_refl eq_refl).
  discriminate.
Defined.

(** The [HTTPError] clause reads [response.status_code], and [response] is
    bound only once the request has returned: were the request itself to
    raise an [HTTPError], the clause would fail with [UnboundLocalError]
    before reporting anything. *)
Theorem fetch_handler_needs_a_response
        (w : world) (env : environ) (city aqi : string) (e : exc) :
  city <> EmptyString ->
  requests_get w (request_url env city aqi) = Raise e ->
  isinstance e HTTPError = true ->
  get_current_weather w env city aqi
  = (Raise response_unbound, [HttpGet (request_url env city aqi)]).
Proof.
  intros Hcity Hreq He.
  unfold get_current_weather. rewrite (nonempty_truthy city Hcity). cbn [negb]. cbv zeta.
  rewrite Hreq. cbn [mbind io_bind]. unfold io_try. cbn [find_clause].
  now rewrite He.
Qed.

Lemma fetch_handler_needs_a_response_sample :
  get_current_weather Sample.failing_request Sample.with_keys "London" "yes"
  = (Raise response_unbound, [HttpGet (request_url Sample.with_keys "London" "yes")]).
Proof.
  refine (fetch_handler_needs_a_response Sample.failing_request Sample.with_keys
            "London" "yes" (Exc HTTPError "503 Server Error") _ eq_refl eq_refl).
  discriminate.
Defined.

(** ** Events of a block, by kind *)

Section EventKinds.

Variable f : event -> bool.

Lemma free_of_bind {A B} (m : io A) (k : A -> io B) :
  free_of f m -> (forall a, free_of f (k a)) -> free_of f (m ≫= k).
Proof.
  unfold free_of. intros Hm Hk. rewrite filter_bind, Hm.
  destruct (fst m); [apply Hk | reflexivity].
Qed.

Lemma free_of_pure {A} (o : outcome A) : free_of f (pure o).
Proof. reflexivity. Qed.

Lemma free_of_mret {A} (a : A) : free_of f (mret a : io A).
Proof. reflexivity. Qed.

Lemma free_of_emit (ev : event) : f ev = false -> free_of f (emit ev).
Proof. intros H. unfold free_of, emit. cbn [snd List.filter]. now rewrite H. Qed.

Lemma free_of_call {A} (o : outcome A) (ev : event) : f ev = false -> free_of f (o, [ev]).
Proof. intros H. unfold free_of. cbn [snd List.filter]. now rewrite H. Qed.

Lemma free_of_if {A} (c : bool) (m n : io A) :
  free_of f m -> free_of f n -> free_of f (if c then m else n).
Proof. now destruct c. Qed.

Lemma free_of_io_try {A} (body : io A) (cls : exc_class) (h : exc -> io A) :
  free_of f body -> (forall e, free_of f (h e)) -> free_of f (io_try body [(cls, h)]).
Proof.
  unfold free_of. intros Hb Hh. rewrite filter_io_try; [exact Hb |].
  intros e h'. cbn [find_clause]. destruct (isinstance e cls); [| discriminate].
  intros [= <-]. apply Hh.
Qed.

Lemma snd_listen {A} (m : io A) : snd (listen m) = snd m.
Proof. now destruct m as [[a | e] t]. Qed.

Lemma free_of_listen {A} (m : io A) : free_of f m -> free_of f (listen m).
Proof. unfold free_of. now rewrite snd_listen. Qed.

Lemma free_of_foreign (r : foreign_run) :
  (forall did after, f (Foreign did after) = false) -> free_of f (foreign r).
Proof. intros H. unfold free_of, foreign. cbn [snd List.filter]. now rewrite H. Qed.

End EventKinds.

Ltac free_steps :=
  repeat first
    [ apply free_of_pure
    | apply free_of_mret
    | apply free_of_emit; reflexivity
    | apply free_of_call; reflexivity
    | apply free_of_foreign; reflexivity
    | apply free_of_listen
    | apply free_of_if
    | apply free_of_io_try; [| intros ?]
    | apply free_of_bind; [| intros ?]
    | progress cbv zeta ].

(** The insight generator prints, asks the model and evaluates the reply;
    of its own it does nothing else. *)
Lemma analyze_weather_free (f : event -> bool) (py : builtins) (w : world) (wd : pyval) :
  (forall model system user, f (ChatCompletion model system user) = false) ->
  (forall line, f (Print line) = false) ->
  (forall did after, f (Foreign did after) = false) ->
  free_of f (analyze_weather py w wd).
Proof.
  intros Hchat Hprint Hforeign. rewrite analyze_weather_prepared.
  apply free_of_io_try.
  - apply free_of_bind; [apply free_of_pure | intros prompt].
    unfold request_insights.
    apply free_of_bind; [apply free_of_call, Hchat | intros response].
    rewrite parsed_reply. destruct (reply_text py response); [| reflexivity].
    unfold free_of. cbn [snd List.filter]. now rewrite Hforeign.
  - intros e. unfold report_and_fall_back.
    apply free_of_bind; [apply free_of_emit, Hprint | intros ?; apply free_of_mret].
Qed.

Lemma fetch_free (f : event -> bool) (w : world) (env : environ) (city aqi : string) :
  (forall url, f (HttpGet url) = false) ->
  (forall msg, f (StError msg) = false) ->
  free_of f (get_current_weather w env city aqi).
Proof.
  intros Hget Herr. unfold get_current_weather.
  apply free_of_if; [apply free_of_mret |]. cbv zeta.
  unfold free_of. rewrite filter_io_try.
  - apply free_of_bind; [apply free_of_call, Hget | intros r].
    apply free_of_bind; [apply free_of_pure | intros ?; apply free_of_pure].
  - intros e h. cbn [find_clause].
    destruct (isinstance e HTTPError).
    + intros [= <-].
      destruct (requests_get w (request_url env city aqi)) as [r | e'];
        [| reflexivity].
      apply free_of_bind; [| intros ?; apply free_of_mret].
      apply free_of_if; apply free_of_emit, Herr.
    + destruct (isinstance e RequestException); [| discriminate].
      intros [= <-]. cbn [emit mret io_ret mbind io_bind snd app List.filter].
      now rewrite Herr.
Qed.

Lemma subscript_no_lookup (py : builtins) (o : pyobj) (key : string) :
  free_of is_lookup (subscript py o key).
Proof. destruct o; unfold subscript; free_steps. Qed.

Lemma st_write_no_lookup (py : builtins) (o : pyobj) : free_of is_lookup (st_write py o).
Proof. destruct o; unfold st_write; free_steps. Qed.

Lemma insights_section_no_lookup (py : builtins) (w : world) (data : pyval) :
  free_of is_lookup (insights_section py w data).
Proof.
  unfold insights_section.
  apply free_of_io_try; [| intros e; free_steps].
  apply free_of_bind; [apply free_of_pure | intros summary].
  apply free_of_bind; [now apply analyze_weather_free | intros insights].
  repeat first
    [ apply subscript_no_lookup
    | apply st_write_no_lookup
    | apply free_of_emit; reflexivity
    | apply free_of_bind; [| intros ?] ].
Qed.

Lemma display_no_lookup (py : builtins) (w : world) (ai_enabled : bool) (data : pyval) :
  free_of is_lookup (display_weather_info py w ai_enabled data).
Proof.
  unfold display_weather_info.
  repeat first
    [ apply insights_section_no_lookup
    | apply free_of_pure
    | apply free_of_mret
    | apply free_of_emit; reflexivity
    | apply free_of_listen
    | apply free_of_if
    | apply free_of_bind; [| intros ?]
    | progress cbv zeta ].
Qed.

(** ** The page *)

Lemma main_lookup (py : builtins) (w : world) (env : environ) (ai_enabled : bool)
      (key typed : string) :
  WEATHER_API_KEY env = Some key -> key <> EmptyString -> typed <> EmptyString ->
  lookups (snd (main py w env ai_enabled typed)) = [HttpGet (request_url env typed "yes")].
Proof.
  intros Hkey Hnonempty Htyped.
  destruct (fetch_trace w env typed "yes" Htyped) as [Hfl _].
  assert (forall (A : Type) (o : outcome A),
             match o with Return _ => [] | Raise _ => @nil event end = []) as Hboth
    by (now intros A []).
  unfold lookups in *. unfold main. rewrite Hkey. cbv iota.
  rewrite (nonempty_truthy key Hnonempty), (nonempty_truthy typed Htyped). cbn [negb].
  rewrite !filter_bind, Hfl.
  assert (List.filter is_lookup
            (snd (if negb ai_enabled
                  then emit (StWarning ai_disabled_warning);;
                       emit (StCode (env_snippet "OPENAI_API_KEY=your_openai_api_key"))
                  else mret tt)) = []) as -> by (now destruct ai_enabled).
  assert (fst (if negb ai_enabled
               then emit (StWarning ai_disabled_warning);;
                    emit (StCode (env_snippet "OPENAI_API_KEY=your_openai_api_key"))
               else mret tt) = Return tt) as -> by (now destruct ai_enabled).
  cbn [emit fst snd List.filter is_lookup app mbind io_bind].
  rewrite Hboth, List.app_nil_r.
  destruct (fst (get_current_weather w env typed "yes")) as [data | e]; [| reflexivity].
  assert (List.filter is_lookup
            (snd (if truthy data then display_weather_info py w ai_enabled data
                  else mret tt)) = []) as ->; [| reflexivity].
  destruct (truthy data); [apply display_no_lookup | reflexivity].
Qed.

(** One run of the script carries out its weather request exactly when the
    module body got through, a non-empty weather key is configured and a
    non-empty city was typed, and then once, for that city. *)
Theorem run_calls (py : builtins) (w : world) (env : environ) (typed : string) :
  lookups (snd (run py w env typed))
  = match fst (startup w env) with
    | Return _ =>
        if configured env && negb (String.eqb typed EmptyString)
        then [HttpGet (request_url env typed "yes")]
        else []
    | Raise _ => []
    end.
Proof.
  destruct (startup_silent w env) as [Hsl Hsi].
  unfold run, lookups in *. rewrite !filter_bind, Hsl.
  destruct (fst (startup w env)) as [ai | e]; [| reflexivity].
  cbn [app].
  unfold configured.
  destruct (WEATHER_API_KEY env) as [key |] eqn:Hkey.
  - destruct (String.eqb key EmptyString) eqn:Hempty.
    + apply String.eqb_eq in Hempty. subst key. unfold main. rewrite Hkey.
      reflexivity.
    + apply String.eqb_neq in Hempty.
      destruct (String.eqb typed EmptyString) eqn:Htyped.
      * apply String.eqb_eq in Htyped. subst typed. unfold main. rewrite Hkey. cbv iota.
        rewrite (nonempty_truthy key Hempty).
        now destruct ai.
      * apply String.eqb_neq in Htyped.
        exact (main_lookup py w env ai key typed Hkey Hempty Htyped).
  - unfold main. rewrite Hkey. reflexivity.
Qed.

(** A document that is not empty and has no [location] (the fetcher checks
    neither) makes the page fail with [KeyError] before anything of it is
    drawn: [main] raises, and nothing is reported through [st.error]. *)
Theorem main_fails_on_partial_document
        (py : builtins) (w : world) (env : environ) (ai_enabled : bool)
        (key typed : string) (r : http_response) (d : gmap string pyval) :
  WEATHER_API_KEY env = Some key -> key <> EmptyString -> typed <> EmptyString ->
  requests_get w (request_url env typed "yes") = Return r ->
  raise_for_status r = Return tt ->
  json r = Return (VDict d) ->
  truthy (VDict d) = true ->
  d !! "location" = None ->
  fst (main py w env ai_enabled typed) = Raise (KeyError_of "location")
  /\ error_reports (snd (main py w env ai_enabled typed)) = []
  /\ lookups (snd (main py w env ai_enabled typed)) = [HttpGet (request_url env typed "yes")].
Proof.
  intros Hkey Hnonempty Htyped Hreq Hstatus Hjson Htruthy Hloc.
  assert (get_current_weather w env typed "yes"
          = (Return (VDict d), [HttpGet (request_url env typed "yes")])) as Hfetch.
  { unfold get_current_weather. rewrite (nonempty_truthy typed Htyped). cbn [negb].
    cbv zeta. rewrite Hreq. cbn [mbind io_bind]. rewrite Hstatus.
    cbn [pure mbind io_bind]. now rewrite Hjson. }
  assert (display_weather_info py w ai_enabled (VDict d)
          = (Raise (KeyError_of "location"), [])) as Hshow.
  { unfold display_weather_info. rewrite Htruthy. cbn [negb getitem].
    now rewrite Hloc. }
  unfold main. rewrite Hkey. cbv iota.
  rewrite (nonempty_truthy key Hnonempty), (nonempty_truthy typed Htyped). cbn [negb].
  rewrite Hfetch. cbn [mbind io_bind]. rewrite Htruthy, Hshow.
  destruct ai_enabled; repeat split; reflexivity.
Qed.

Lemma main_fails_on_partial_document_sample :
  fst (main Sample.cpython Sample.partial_document Sample.with_keys true "London")
  = Raise (KeyError_of "location")
  /\ error_reports
       (snd (main Sample.cpython Sample.partial_document Sample.with_keys true "London"))
     = []
  /\ lookups
       (snd (main Sample.cpython Sample.partial_document Sample.with_keys true "London"))
     = [HttpGet (request_url Sample.with_keys "London" "yes")].
Proof.
  refine (main_fails_on_partial_document Sample.cpython Sample.partial_document
            Sample.with_keys true "wkey" "London" _ (delete "location" _)
            eq_refl _ _ eq_refl eq_refl eq_refl eq_refl eq_refl); discriminate.
Defined.









(** The summary never raises, whatever it is given, and it is one of two
    texts: the filled-in template when the document has all the template
    reads, with numbers where it compares, a string where it lowers and
    values that can be printed where it prints, and the failure message on
    every other input. *)
Theorem weather_summary_dichotomy (py : builtins) (wd : pyval) :
  exists s : string,
    get_weather_summary py wd = Return s
    /\ Text.starts_with
         (if summary_fills py wd then "During the "
          else "Unable to generate weather summary: ") s = true.
Proof.
  destruct (summary_fills py wd) eqn:Hready.
  - pose proof (weather_summary_ready py wd Hready) as H.
    destruct (get_weather_summary py wd) as [s | e]; [| contradiction].
    now exists s.
  - pose proof (ordinary_summary_body py wd) as Hord.
    unfold get_weather_summary, try_except.
    destruct (summary_body py wd) as [s | e] eqn:Hbody.
    + apply summary_body_Return_fills in Hbody. congruence.
    + simpl in Hord. rewrite Hord. eexists. split; [reflexivity |].
      apply starts_with_app.
Qed.

(** When the chat call fails, the page still shows the four placeholder
    texts where the insights go, and no error message. *)
Theorem insights_section_shows_fallback (py : builtins) (w : world) (data : pyval) :
  (forall model system user,
      exists e, chat_completions_create w model system user = Raise e
                /\ isinstance e Exception = true) ->
  writes (snd (insights_section py w data))
  = [StWrite (VStr "Unable to analyze weather conditions.");
     StWrite (VStr "Recommendations unavailable.");
     StWrite (VStr "Activity suggestions unavailable.");
     StWrite (VStr "Health advice unavailable.")]
  /\ error_reports (snd (insights_section py w data)) = [].
Proof.
  intros Hfail.
  assert (fst (analyze_weather py w data) = Return fallback_insights) as Hresult.
  { apply (analyze_weather_by_request py w
             (fun r => r = Return (Plain fallback_insights)) eq_refl).
    intros prompt. rewrite request_insights_outcome.
    destruct (Hfail "gpt-3.5-turbo" system_message prompt) as (e & -> & ->). reflexivity. }
  pose proof (analyze_weather_free is_write py w data
                (fun _ _ _ => eq_refl) (fun _ => eq_refl) (fun _ _ => eq_refl)) as Hwrites.
  pose proof (analyze_weather_free is_error_report py w data
                (fun _ _ _ => eq_refl) (fun _ => eq_refl) (fun _ _ => eq_refl)) as Herrors.
  destruct (weather_summary_total py data) as [summary Hsummary].
  unfold insights_section. rewrite Hsummary, pure_Return_bind.
  destruct (analyze_weather py w data) as [result t].
  cbn [fst] in Hresult. subst result. unfold free_of in Hwrites, Herrors.
  cbn [snd] in Hwrites, Herrors.
  cbn [mbind io_bind].
  match goal with
  | |- context [let '(r, t') := ?rendering in _] =>
      destruct rendering as [r' t'] eqn:Hrendering; vm_compute in Hrendering;
      injection Hrendering as <- <-
  end.
  unfold writes, error_reports, io_try. cbn [snd].
  rewrite !List.filter_app, Hwrites, Herrors.
  split; reflexivity.
Qed.

Lemma insights_section_shows_fallback_sample :
  writes (snd (insights_section Sample.cpython Sample.chat_down Sample.london))
  = [StWrite (VStr "Unable to analyze weather conditions.");
     StWrite (VStr "Recommendations unavailable.");
     StWrite (VStr "Activity suggestions unavailable.");
     StWrite (VStr "Health advice unavailable.")]
  /\ error_reports (snd (insights_section Sample.cpython Sample.chat_down Sample.london))
     = [].
Proof.
  refine (insights_section_shows_fallback Sample.cpython Sample.chat_down Sample.london _).
  intros model system user. eexists. split; reflexivity.
Defined.
